(** * a2a_gui_tool: validation and code generation of [main.py]

    A shallow embedding of [src/a2a_gui_tool/main.py]: the two formatting
    helpers, the [get_data] methods of the configuration widgets, and
    [MainWindow.handle_generate_code] (validation checks followed by the
    line-by-line construction of the generated source).

    Text.  A Python [str] is a sequence of code points.  The development
    covers text whose code points are below 256 and represents each one by
    an [ascii]; a [string] is then the Python string itself.  All template
    text of [main.py] is plain ASCII. *)

From Stdlib Require Import String Ascii List Bool Arith Lia DecimalString DecimalNat.
Import ListNotations.
Open Scope list_scope.
Open Scope string_scope.

(** ** Python string primitives *)

Module Py.

(** Line feed, the character written [\n] in the source. *)
Definition LF : ascii := "010"%char.
Definition TAB : ascii := "009"%char.
Definition CR : ascii := "013"%char.
Definition DQUOTE : ascii := "034"%char.
Definition SQUOTE : ascii := "039"%char.
Definition BACKSLASH : ascii := "092"%char.

Definition chr (c : ascii) : string := String c EmptyString.

(** The source line [code.append("\n# ...")] starts with a line feed. *)
Definition nl : string := chr LF.

(** Truth value of a [str]: only the empty string is false. *)
Definition truthy (s : string) : bool :=
  match s with
  | EmptyString => false
  | String _ _ => true
  end.

(** [str.isspace] on one code point below 256: the ASCII table
    [_Py_ascii_whitespace] (9-13, 28-32) and the two Latin-1 code points NEL
    (133) and NO-BREAK SPACE (160). *)
Definition isspace (c : ascii) : bool :=
  let n := nat_of_ascii c in
  ((9 <=? n)%nat && (n <=? 13)%nat) || ((28 <=? n)%nat && (n <=? 32)%nat)
  || (n =? 133)%nat || (n =? 160)%nat.

(** [s.lstrip()] *)
Fixpoint lstrip (s : string) : string :=
  match s with
  | EmptyString => EmptyString
  | String c r => if isspace c then lstrip r else s
  end.

(** [s.rstrip()] *)
Fixpoint rstrip (s : string) : string :=
  match s with
  | EmptyString => EmptyString
  | String c r =>
      match rstrip r with
      | EmptyString => if isspace c then EmptyString else chr c
      | String _ _ as r' => String c r'
      end
  end.

(** [s.strip()] *)
Definition strip (s : string) : string := rstrip (lstrip s).

(** [c in s] for a one-character needle. *)
Fixpoint contains (c : ascii) (s : string) : bool :=
  match s with
  | EmptyString => false
  | String d r => Ascii.eqb d c || contains c r
  end.

(** Splitting at every character satisfying [is_sep]: [n] separators give
    [n + 1] pieces, empty pieces included.  It is [re.split] for a character
    class and [str.split(sep)] for a one-character [sep]. *)
Fixpoint split_on (is_sep : ascii -> bool) (s : string) : list string :=
  match s with
  | EmptyString => [EmptyString]
  | String c r =>
      if is_sep c then EmptyString :: split_on is_sep r
      else match split_on is_sep r with
           | [] => [chr c]
           | p :: ps => String c p :: ps
           end
  end.

(** [re.split(r'[,\n]', s)] *)
Definition re_split_comma_newline (s : string) : list string :=
  split_on (fun c => Ascii.eqb c ","%char || Ascii.eqb c LF) s.

(** [s.split(sep)] *)
Definition split (sep : ascii) (s : string) : list string :=
  split_on (Ascii.eqb sep) s.

(** [s.rsplit(sep, 1)]: at most one split, at the last [sep]. *)
Fixpoint rsplit1 (sep : ascii) (s : string) : list string :=
  match s with
  | EmptyString => [EmptyString]
  | String c r =>
      match rsplit1 sep r with
      | [a; b] => [String c a; b]
      | _ => if Ascii.eqb c sep then [EmptyString; r] else [String c r]
      end
  end.

(** [l[i]] for [i >= 0]; [None] stands for [IndexError]. *)
Definition index {A} (l : list A) (i : nat) : option A := nth_error l i.

(** [l[-1]]; [None] stands for [IndexError]. *)
Fixpoint last_item {A} (l : list A) : option A :=
  match l with
  | [] => None
  | [x] => Some x
  | _ :: r => last_item r
  end.

(** [sep.join(l)] *)
Fixpoint join (sep : string) (l : list string) : string :=
  match l with
  | [] => EmptyString
  | [x] => x
  | x :: r => x ++ sep ++ join sep r
  end.

(** [str(b)] for a [bool], as an f-string renders it. *)
Definition str_of_bool (b : bool) : string := if b then "True" else "False".

(** [str(n)] for a non-negative [int]. *)
Definition str_of_nat (n : nat) : string := NilEmpty.string_of_uint (Nat.to_uint n).

(** *** [repr] of a [str] and of a list of [str] *)

Definition hex_digit (n : nat) : ascii :=
  nth n ["0"; "1"; "2"; "3"; "4"; "5"; "6"; "7"; "8"; "9";
         "a"; "b"; "c"; "d"; "e"; "f"]%char "0"%char.

(** The escape [\xhh] of a code point below 256. *)
Definition hex_escape (n : nat) : string :=
  String BACKSLASH (String "x" (String (hex_digit (n / 16)) (chr (hex_digit (n mod 16))))).

(** [str.isprintable] on a code point from 128 to 255: the C1 controls,
    NO-BREAK SPACE (160) and SOFT HYPHEN (173) are not printable. *)
Definition isprintable_latin1 (n : nat) : bool :=
  (161 <=? n)%nat && negb (n =? 173)%nat.

(** One character of [repr(s)] inside the quote [q] (CPython's
    [unicode_repr]). *)
Definition repr_char (q : ascii) (c : ascii) : string :=
  let n := nat_of_ascii c in
  if Ascii.eqb c q || Ascii.eqb c BACKSLASH then String BACKSLASH (chr c)
  else if Ascii.eqb c TAB then String BACKSLASH "t"
  else if Ascii.eqb c LF then String BACKSLASH "n"
  else if Ascii.eqb c CR then String BACKSLASH "r"
  else if (n <? 32)%nat || (n =? 127)%nat then hex_escape n
  else if (n <? 127)%nat then chr c
  else if isprintable_latin1 n then chr c
  else hex_escape n.

Fixpoint repr_body (q : ascii) (s : string) : string :=
  match s with
  | EmptyString => EmptyString
  | String c r => repr_char q c ++ repr_body q r
  end.

(** [repr(s)]: single quotes, unless [s] has a single quote and no double
    quote. *)
Definition repr_str (s : string) : string :=
  let q := if contains SQUOTE s && negb (contains DQUOTE s) then DQUOTE else SQUOTE in
  String q (repr_body q s ++ chr q).

(** [repr(l)] for a list of [str], which is also what [f"{l}"] renders. *)
Definition repr_list (l : list string) : string :=
  "[" ++ join ", " (map repr_str l) ++ "]".

End Py.

(** ** The two formatting helpers *)

(** The list comprehension of [format_string_list_for_code]:
    [[item.strip() for item in re.split(r'[,\n]', input_str) if item.strip()]] *)
Definition items_of (input_str : string) : list string :=
  map Py.strip
    (filter (fun item => Py.truthy (Py.strip item))
       (Py.re_split_comma_newline input_str)).

Definition format_string_list_for_code (input_str : string) : string :=
  if negb (Py.truthy (Py.strip input_str)) then "[]"
  else
    let items := items_of input_str in
    Py.repr_list (map (fun item => item) items).

Definition format_single_string_for_code (input_str : string) : string :=
  if Py.contains Py.LF input_str
  then String Py.DQUOTE (String Py.DQUOTE (String Py.DQUOTE
         (input_str ++ String Py.DQUOTE (String Py.DQUOTE (Py.chr Py.DQUOTE)))))
  else String Py.DQUOTE (input_str ++ Py.chr Py.DQUOTE).

(** ** The data read from the widgets *)

(** Exceptions of the generation code: [None] is a raised [IndexError]. *)
Definition bind {A B} (m : option A) (k : A -> option B) : option B :=
  match m with
  | Some a => k a
  | None => None
  end.

Notation "x <- m ;; k" := (bind m (fun x => k))
  (at level 61, m at next level, right associativity).

(** The dict built by [SkillEntryWidget.get_data].  [tags] and [examples]
    hold list literals already rendered as text. *)
Record skill_data : Type := Build_skill_data {
  skill_id : string;
  skill_name : string;
  skill_description : string;
  skill_tags : string;
  skill_examples : string
}.

Record capabilities_data : Type := Build_capabilities_data {
  streaming : bool;
  pushNotifications : bool
}.

(** The dict built by [AgentCardWidget.get_data]. *)
Record agent_card_data : Type := Build_agent_card_data {
  card_name : string;
  card_description : string;
  card_url : string;
  card_version : string;
  defaultInputModes : string;
  defaultOutputModes : string;
  capabilities : capabilities_data;
  card_skills : list skill_data
}.

(** The dict built by [ExtendedAgentCardWidget.get_data]. *)
Record extended_card_data : Type := Build_extended_card_data {
  ext_name : string;
  ext_description : string;
  ext_version : string;
  ext_skills : list skill_data
}.

(** The dict built by [ServerConfigWidget.get_data]. *)
Record server_data : Type := Build_server_data {
  agent_executor_class_name : string;
  task_store : string
}.

(** The dict built by [RelationshipEntryWidget.get_data]. *)
Record relationship_data : Type := Build_relationship_data {
  rel_name : string;
  rel_url : string
}.

Module SkillEntryWidget.

Record t : Type := Build {
  id_edit : string;
  name_edit : string;
  description_edit : string;
  tags_edit : string;
  examples_edit : string
}.

Definition get_data (self : t) : skill_data :=
  {| skill_id := Py.strip (id_edit self);
     skill_name := Py.strip (name_edit self);
     skill_description := Py.strip (description_edit self);
     skill_tags := format_string_list_for_code (tags_edit self);
     skill_examples := format_string_list_for_code (examples_edit self) |}.

End SkillEntryWidget.

Module AgentCardWidget.

Record t : Type := Build {
  name_edit : string;
  url_edit : string;
  version_edit : string;
  description_edit : string;
  default_input_modes_edit : string;
  default_output_modes_edit : string;
  streaming_checkbox : bool;
  push_notifications_checkbox : bool;
  skills_layout : list SkillEntryWidget.t
}.

Definition get_data (self : t) : agent_card_data :=
  let skills_data := map SkillEntryWidget.get_data (skills_layout self) in
  {| card_name := Py.strip (name_edit self);
     card_description := Py.strip (description_edit self);
     card_url := Py.strip (url_edit self);
     card_version := Py.strip (version_edit self);
     defaultInputModes := format_string_list_for_code (default_input_modes_edit self);
     defaultOutputModes := format_string_list_for_code (default_output_modes_edit self);
     capabilities :=
       {| streaming := streaming_checkbox self;
          pushNotifications := push_notifications_checkbox self |};
     card_skills := skills_data |}.

End AgentCardWidget.

Module ExtendedAgentCardWidget.

Record t : Type := Build {
  name_edit : string;
  description_edit : string;
  version_edit : string;
  extended_skills_layout : list SkillEntryWidget.t
}.

Definition get_data (self : t) : extended_card_data :=
  let skills_data := map SkillEntryWidget.get_data (extended_skills_layout self) in
  {| ext_name := Py.strip (name_edit self);
     ext_description := Py.strip (description_edit self);
     ext_version := Py.strip (version_edit self);
     ext_skills := skills_data |}.

End ExtendedAgentCardWidget.

Module ServerConfigWidget.

(** The two items of [task_store_combo], which is not editable. *)
Inductive combo_item : Type :=
| InMemoryTaskStore
| Custom.

Definition currentText (c : combo_item) : string :=
  match c with
  | InMemoryTaskStore => "InMemoryTaskStore"
  | Custom => "Custom"
  end.

Record t : Type := Build {
  agent_executor_edit : string;
  task_store_combo : combo_item;
  custom_task_store_edit : string
}.

Definition get_data (self : t) : server_data :=
  let task_store_option := currentText (task_store_combo self) in
  let task_store_val :=
    if task_store_option =? "Custom"
    then Py.strip (custom_task_store_edit self)
    else task_store_option in
  {| agent_executor_class_name := Py.strip (agent_executor_edit self);
     task_store := task_store_val |}.

End ServerConfigWidget.

Module RelationshipEntryWidget.

Record t : Type := Build {
  name_edit : string;
  url_edit : string
}.

Definition get_data (self : t) : relationship_data :=
  {| rel_name := Py.strip (name_edit self);
     rel_url := Py.strip (url_edit self) |}.

End RelationshipEntryWidget.

Module AgentRelationshipsWidget.

Record t : Type := Build {
  relationships_layout : list RelationshipEntryWidget.t
}.

(** The value under the single key [relationships] of the returned dict. *)
Definition get_data (self : t) : list relationship_data :=
  map RelationshipEntryWidget.get_data (relationships_layout self).

End AgentRelationshipsWidget.

(** ** Validation checks of [handle_generate_code] *)

Inductive card_kind : Type :=
| AgentCard
| ExtendedAgentCard.

(** One constructor per [QMessageBox.warning] of the validation checks.  The
    index of a skill is the one [enumerate] gives, counted from 0. *)
Inductive validation_error : Type :=
| NameRequired
| UrlRequired
| SkillIdRequired (card : card_kind) (i : nat)
| SkillNameRequired (card : card_kind) (i : nat)
| AgentExecutorRequired
| CustomTaskStoreRequired.

Definition skill_prefix (card : card_kind) (i : nat) : string :=
  match card with
  | AgentCard => "Agent Card - Skill #"
  | ExtendedAgentCard => "Extended Agent Card - Skill #"
  end ++ Py.str_of_nat (i + 1).

(** The text of the message box. *)
Definition warning_text (e : validation_error) : string :=
  match e with
  | NameRequired => "Agent Card: Name is required."
  | UrlRequired => "Agent Card: URL is required."
  | SkillIdRequired card i => skill_prefix card i ++ ": ID is required."
  | SkillNameRequired card i => skill_prefix card i ++ ": Name is required."
  | AgentExecutorRequired =>
      "Server Configuration: Agent Executor Class Name is required."
  | CustomTaskStoreRequired =>
      "Server Configuration: Custom Task Store Class is required when 'Custom' is selected."
  end.

(** The loop [for i, skill_data in enumerate(skills)], from index [i] on. *)
Fixpoint validate_skills (card : card_kind) (i : nat) (skills : list skill_data)
  : option validation_error :=
  match skills with
  | [] => None
  | skill :: rest =>
      if negb (Py.truthy (skill_id skill)) then Some (SkillIdRequired card i)
      else if negb (Py.truthy (skill_name skill)) then Some (SkillNameRequired card i)
      else validate_skills card (S i) rest
  end.

Definition list_truthy {A} (l : list A) : bool :=
  match l with
  | [] => false
  | _ :: _ => true
  end.

(** Lines 504-540: [Some e] when the handler shows the warning [e] and
    returns, [None] when every check passes.  [combo_text] is
    [self.server_config_widget.task_store_combo.currentText()]. *)
Definition validation_checks (acd : agent_card_data) (ecd : extended_card_data)
    (sd : server_data) (combo_text : string) : option validation_error :=
  if negb (Py.truthy (card_name acd)) then Some NameRequired
  else if negb (Py.truthy (card_url acd)) then Some UrlRequired
  else
    match validate_skills AgentCard 0 (card_skills acd) with
    | Some e => Some e
    | None =>
        match
          (if list_truthy (ext_skills ecd)
           then validate_skills ExtendedAgentCard 0 (ext_skills ecd)
           else None)
        with
        | Some e => Some e
        | None =>
            if negb (Py.truthy (agent_executor_class_name sd))
            then Some AgentExecutorRequired
            else if (combo_text =? "Custom") && negb (Py.truthy (task_store sd))
            then Some CustomTaskStoreRequired
            else None
        end
    end.

(** ** Code generation of [handle_generate_code] *)

(** Lines 547-549. *)
Definition import_lines : list string :=
  [ "from a2a.sdk.public_api.agent import AgentCard, AgentSkill, AgentCapabilities, ExtendedAgentCard";
    "from a2a.sdk.public_api.http import DefaultRequestHandler, A2AStarletteApplication";
    "from a2a.sdk.public_api.task_store.memory import InMemoryTaskStore" ].

(** Lines 552-557: the import of a custom task store. *)
Definition custom_import_lines (task_store_path : string) : option (list string) :=
  if negb (task_store_path =? "InMemoryTaskStore")
     && negb (task_store_path =? "Custom")
     && Py.contains "."%char task_store_path
  then
    custom_task_store_module <- Py.index (Py.rsplit1 "."%char task_store_path) 0 ;;
    custom_task_store_class <- Py.index (Py.rsplit1 "."%char task_store_path) 1 ;;
    Some [ "from " ++ custom_task_store_module ++ " import " ++ custom_task_store_class ]
  else Some [].

(** Lines 561-565. *)
Definition capabilities_lines (acd : agent_card_data) : list string :=
  [ Py.nl ++ "# --- Agent Capabilities Definition ---";
    "agent_capabilities = AgentCapabilities(";
    "    streaming=" ++ Py.str_of_bool (streaming (capabilities acd)) ++ ",";
    "    push_notifications=" ++ Py.str_of_bool (pushNotifications (capabilities acd)) ++ ",";
    ")" ].

(** The body of the loops at lines 570-577 and 608-615. *)
Definition skill_lines (skill : skill_data) : list string :=
  [ "    AgentSkill(";
    "        id=" ++ format_single_string_for_code (skill_id skill) ++ ",";
    "        name=" ++ format_single_string_for_code (skill_name skill) ++ ",";
    "        description=" ++ format_single_string_for_code (skill_description skill) ++ ",";
    "        tags=" ++ skill_tags skill ++ ",";
    "        examples=" ++ skill_examples skill ++ ",";
    "    )," ].

(** Lines 567-580. *)
Definition agent_skills_lines (acd : agent_card_data) : list string :=
  (Py.nl ++ "# --- Main Agent Card Skills Definition ---")
  :: (if list_truthy (card_skills acd)
      then app ("agent_skills = [" :: flat_map skill_lines (card_skills acd)) ["]"]
      else ["agent_skills = []"]).

(** Lines 582-592. *)
Definition agent_card_lines (acd : agent_card_data) : list string :=
  [ Py.nl ++ "# --- Main Agent Card Definition ---";
    "public_agent_card = AgentCard(";
    "    name=" ++ format_single_string_for_code (card_name acd) ++ ",";
    "    description=" ++ format_single_string_for_code (card_description acd) ++ ",";
    "    url=" ++ format_single_string_for_code (card_url acd) ++ ",";
    "    version=" ++ format_single_string_for_code (card_version acd) ++ ",";
    "    default_input_modes=" ++ defaultInputModes acd ++ ",";
    "    default_output_modes=" ++ defaultOutputModes acd ++ ",";
    "    capabilities=agent_capabilities,";
    "    skills=agent_skills,";
    ")" ].

(** A [dict] from [str] to [str]: the items in insertion order. *)
Definition dict : Type := list (string * string).

(** [d[k] = v]: a present key keeps its place, a new one goes last. *)
Fixpoint dict_set (d : dict) (k v : string) : dict :=
  match d with
  | [] => [(k, v)]
  | (k', v') :: r => if k' =? k then (k, v) :: r else (k', v') :: dict_set r k v
  end.

(** Lines 595-602. *)
Definition extended_card_update_dict (ecd : extended_card_data) : dict :=
  let d0 : dict := [] in
  let d1 :=
    if Py.truthy (ext_name ecd)
    then dict_set d0 "name" (format_single_string_for_code (ext_name ecd)) else d0 in
  let d2 :=
    if Py.truthy (ext_description ecd)
    then dict_set d1 "description" (format_single_string_for_code (ext_description ecd))
    else d1 in
  if Py.truthy (ext_version ecd)
  then dict_set d2 "version" (format_single_string_for_code (ext_version ecd)) else d2.

(** The list [update_str_parts] when line 622 tests it: line 604, then the
    [append] of line 620. *)
Definition update_str_parts (ecd : extended_card_data) : list string :=
  app (map (fun kv => fst kv ++ "=" ++ snd kv) (extended_card_update_dict ecd))
      (if list_truthy (ext_skills ecd) then ["skills=extended_agent_skills"] else []).

(** Lines 606-616: the second skills list. *)
Definition extended_skills_lines (ecd : extended_card_data) : list string :=
  if list_truthy (ext_skills ecd)
  then app ("extended_agent_skills = [" :: flat_map skill_lines (ext_skills ecd)) ["]"]
  else [].

(** Lines 622-631. *)
Definition extended_card_binding_lines (ecd : extended_card_data) : list string :=
  if list_truthy (update_str_parts ecd)
  then
    let update_str := Py.join ", " (update_str_parts ecd) in
    [ "extended_public_agent_card = ExtendedAgentCard.from_agent_card(public_agent_card, "
      ++ update_str ++ ")" ]
  else
    [ "# No extended agent card attributes or skills defined to override/add.";
      "extended_public_agent_card = None" ].

(** Lines 594-631. *)
Definition extended_card_lines (ecd : extended_card_data) : list string :=
  (Py.nl ++ "# --- Extended Agent Card Definition (if any overrides/additions) ---")
  :: app (extended_skills_lines ecd) (extended_card_binding_lines ecd).

(** Lines 634-641. *)
Definition task_store_instance_code (task_store_val : string) : option string :=
  if task_store_val =? "InMemoryTaskStore" then Some "InMemoryTaskStore()"
  else if negb (task_store_val =? "Custom") then
    task_store_class_name <- Py.last_item (Py.split "."%char task_store_val) ;;
    Some (task_store_class_name ++ "()")
  else Some "None # Default or TODO: Specify Custom Task Store instance".

(** Line 645. *)
Definition resolved_agent_executor_class_name (sd : server_data) : string :=
  if Py.truthy (agent_executor_class_name sd)
  then agent_executor_class_name sd
  else "MyAgentExecutor".

(** Lines 633 and 646-650. *)
Definition request_handler_lines (sd : server_data) (task_store_instance : string)
  : list string :=
  let agent_executor := resolved_agent_executor_class_name sd in
  [ Py.nl ++ "# --- Request Handler Definition ---";
    "# TODO: Define your AgentExecutor class (e.g., " ++ agent_executor ++ ")";
    "http_handler = DefaultRequestHandler(";
    "    agent_executor=" ++ agent_executor ++ "(), # Assuming it's instantiated here";
    "    task_store=" ++ task_store_instance ++ ",";
    ")" ].

(** Lines 652-657. *)
Definition application_lines : list string :=
  [ Py.nl ++ "# --- Server Application Definition ---";
    "app = A2AStarletteApplication(";
    "    agent_card=public_agent_card,";
    "    http_handler=http_handler,";
    "    extended_agent_card=extended_public_agent_card, # Will be None if not defined";
    ")" ].

(** Lines 659-666. *)
Definition relationships_lines (rels : list relationship_data) : list string :=
  (Py.nl ++ "# --- Defined Agent Relationships (Informational) ---")
  :: (if list_truthy rels
      then app ("# {"
                :: map (fun rel => "#    '" ++ rel_name rel ++ "': '" ++ rel_url rel ++ "',")
                     rels)
               ["# }"]
      else ["# No agent relationships defined."]).

(** The list [code] when line 669 joins it, given the import of the custom
    task store and the task-store instance: the sections in the order lines
    545-666 append them. *)
Definition code_lines (custom_import : list string) (task_store_instance : string)
    (acd : agent_card_data) (ecd : extended_card_data) (sd : server_data)
    (rels : list relationship_data) : list string :=
  (import_lines ++ custom_import
   ++ capabilities_lines acd
   ++ agent_skills_lines acd
   ++ agent_card_lines acd
   ++ extended_card_lines ecd
   ++ request_handler_lines sd task_store_instance
   ++ application_lines
   ++ relationships_lines rels)%list.

(** Lines 545-666.  The two lookups that can raise are made in the order of
    the source. *)
Definition code_generation (acd : agent_card_data) (ecd : extended_card_data)
    (sd : server_data) (rels : list relationship_data) : option (list string) :=
  custom_import <- custom_import_lines (task_store sd) ;;
  task_store_instance <- task_store_instance_code (task_store sd) ;;
  Some (code_lines custom_import task_store_instance acd ecd sd rels).

(** ** The main window *)

Module MainWindow.

Inductive tab : Type :=
| AgentCardTab
| ExtendedAgentCardTab
| ServerConfigurationTab
| AgentRelationshipsTab
| GeneratedCodeTab.

Record t : Type := Build {
  agent_card_widget : AgentCardWidget.t;
  extended_agent_card_widget : ExtendedAgentCardWidget.t;
  server_config_widget : ServerConfigWidget.t;
  agent_relationships_widget : AgentRelationshipsWidget.t;
  generated_code_text_edit : string;
  current_tab : tab
}.

(** What one click does besides changing the window. *)
Inductive effect : Type :=
| Warning (title text : string)
| Displayed
| Raised.

Definition setPlainText (self : t) (text : string) : t :=
  {| agent_card_widget := agent_card_widget self;
     extended_agent_card_widget := extended_agent_card_widget self;
     server_config_widget := server_config_widget self;
     agent_relationships_widget := agent_relationships_widget self;
     generated_code_text_edit := text;
     current_tab := current_tab self |}.

Definition setCurrentWidget (self : t) (w : tab) : t :=
  {| agent_card_widget := agent_card_widget self;
     extended_agent_card_widget := extended_agent_card_widget self;
     server_config_widget := server_config_widget self;
     agent_relationships_widget := agent_relationships_widget self;
     generated_code_text_edit := generated_code_text_edit self;
     current_tab := w |}.

(** The validation checks on the data read from the widgets of [self]. *)
Definition validate (self : t) : option validation_error :=
  validation_checks
    (AgentCardWidget.get_data (agent_card_widget self))
    (ExtendedAgentCardWidget.get_data (extended_agent_card_widget self))
    (ServerConfigWidget.get_data (server_config_widget self))
    (ServerConfigWidget.currentText
       (ServerConfigWidget.task_store_combo (server_config_widget self))).

(** The list [code] built from the data read from the widgets of [self]. *)
Definition generate (self : t) : option (list string) :=
  code_generation
    (AgentCardWidget.get_data (agent_card_widget self))
    (ExtendedAgentCardWidget.get_data (extended_agent_card_widget self))
    (ServerConfigWidget.get_data (server_config_widget self))
    (AgentRelationshipsWidget.get_data (agent_relationships_widget self)).

Definition handle_generate_code (self : t) : t * effect :=
  match validate self with
  | Some e => (self, Warning "Validation Error" (warning_text e))
  | None =>
      match generate self with
      | None => (self, Raised)
      | Some code =>
          (setCurrentWidget (setPlainText self (Py.join Py.nl code)) GeneratedCodeTab,
           Displayed)
      end
  end.

End MainWindow.

(** ** Statements in the words of the specification *)

(** Every character of [s] satisfies [P]. *)
Fixpoint all_chars (P : ascii -> bool) (s : string) : bool :=
  match s with
  | EmptyString => true
  | String c r => P c && all_chars P r
  end.

(** The separators of the list-parsing helper: comma and line feed. *)
Definition is_list_separator (c : ascii) : bool :=
  Ascii.eqb c ","%char || Ascii.eqb c Py.LF.

(** The list-parsing helper as the specification words it: split on commas
    and newlines, trim each token, discard the empty ones, keep the order. *)
Definition parseList (raw : string) : list string :=
  filter Py.truthy (map Py.strip (Py.split_on is_list_separator raw)).

(** A token as the helper leaves it: not empty, no white space at either
    end, no separator inside. *)
Definition clean_token (t : string) : Prop :=
  t <> EmptyString /\ Py.lstrip t = t /\ Py.rstrip t = t
  /\ all_chars (fun c => negb (is_list_separator c)) t = true.

(** The quoting rule as the specification words it: a triple-quoted block
    for a text with a newline, a double-quoted literal otherwise, the text
    itself in between. *)
Definition double_quote : string := Py.chr Py.DQUOTE.
Definition triple_quote : string := double_quote ++ double_quote ++ double_quote.

Definition string_literal (text : string) : string :=
  let q := if Py.contains Py.LF text then triple_quote else double_quote in
  q ++ text ++ q.

(** A skill passes validation when its id and its name are not empty. *)
Definition skill_valid (skill : skill_data) : bool :=
  Py.truthy (skill_id skill) && Py.truthy (skill_name skill).

(** The checks of one skills list in the canonical order, each with the
    failure it stands for: per skill, id before name. *)
Fixpoint skill_checks (card : card_kind) (i : nat) (skills : list skill_data)
  : list (bool * validation_error) :=
  match skills with
  | [] => []
  | skill :: rest =>
      (Py.truthy (skill_id skill), SkillIdRequired card i)
      :: (Py.truthy (skill_name skill), SkillNameRequired card i)
      :: skill_checks card (S i) rest
  end.

(** The canonical validation order of the specification: every check (true
    when it passes) with its failure, steps 1 to 6. *)
Definition canonical_checks (acd : agent_card_data) (ecd : extended_card_data)
    (sd : server_data) (combo_text : string) : list (bool * validation_error) :=
  app [ (Py.truthy (card_name acd), NameRequired);
        (Py.truthy (card_url acd), UrlRequired) ]
   (app (skill_checks AgentCard 0 (card_skills acd))
   (app (skill_checks ExtendedAgentCard 0 (ext_skills ecd))
        [ (Py.truthy (agent_executor_class_name sd), AgentExecutorRequired);
          (negb (combo_text =? "Custom") || Py.truthy (task_store sd),
           CustomTaskStoreRequired) ])).

(** The full report: the failures of all failing checks, in that order. *)
Definition all_failures (acd : agent_card_data) (ecd : extended_card_data)
    (sd : server_data) (combo_text : string) : list validation_error :=
  map snd (filter (fun chk => negb (fst chk)) (canonical_checks acd ecd sd combo_text)).

(** The location a failure is tagged with. *)
Inductive location : Type :=
| AtAgentCard
| AtSkill (card : card_kind) (i : nat)
| AtServerConfig.

Definition location_of (e : validation_error) : location :=
  match e with
  | NameRequired | UrlRequired => AtAgentCard
  | SkillIdRequired card i | SkillNameRequired card i => AtSkill card i
  | AgentExecutorRequired | CustomTaskStoreRequired => AtServerConfig
  end.

(** The skills list of a card. *)
Definition skills_of (card : card_kind) (acd : agent_card_data)
    (ecd : extended_card_data) : list skill_data :=
  match card with
  | AgentCard => card_skills acd
  | ExtendedAgentCard => ext_skills ecd
  end.

(** The failure of a skill that is not valid: its id is looked at first. *)
Definition skill_failure (card : card_kind) (i : nat) (skill : skill_data)
  : validation_error :=
  if Py.truthy (skill_id skill) then SkillNameRequired card i
  else SkillIdRequired card i.

(** The overrides of the extended card as the specification words them: the
    fields among name, description and version that are not empty, each with
    its literal, then a skills entry when the card has skills of its own. *)
Definition overrides (ecd : extended_card_data) : list (string * string) :=
  app (map (fun kv => (fst kv, string_literal (snd kv)))
         (filter (fun kv => Py.truthy (snd kv))
            [ ("name", ext_name ecd);
              ("description", ext_description ecd);
              ("version", ext_version ecd) ]))
      (if list_truthy (ext_skills ecd) then [("skills", "extended_agent_skills")] else []).

(** [k=v], one keyword argument of the copy-with-overrides call. *)
Definition keyword_argument (kv : string * string) : string :=
  fst kv ++ "=" ++ snd kv.

(** ** Sample configurations *)

Definition echo_skill : skill_data :=
  {| skill_id := "echo"; skill_name := "Echo Skill"; skill_description := EmptyString;
     skill_tags := "[]"; skill_examples := "[]" |}.

(** A skill entry left blank. *)
Definition blank_skill : skill_data :=
  {| skill_id := EmptyString; skill_name := EmptyString;
     skill_description := EmptyString; skill_tags := "[]"; skill_examples := "[]" |}.

Definition echo_card (skills : list skill_data) : agent_card_data :=
  {| card_name := "Echo"; card_description := EmptyString;
     card_url := "http://localhost:9000/"; card_version := "1.0";
     defaultInputModes := "[]"; defaultOutputModes := "[]";
     capabilities := {| streaming := true; pushNotifications := false |};
     card_skills := skills |}.

(** The echo card with its name left empty. *)
Definition nameless_card : agent_card_data :=
  {| card_name := EmptyString; card_description := EmptyString;
     card_url := "http://localhost:9000/"; card_version := "1.0";
     defaultInputModes := "[]"; defaultOutputModes := "[]";
     capabilities := {| streaming := true; pushNotifications := false |};
     card_skills := [blank_skill] |}.

Definition no_extended_card : extended_card_data :=
  {| ext_name := EmptyString; ext_description := EmptyString;
     ext_version := EmptyString; ext_skills := [] |}.

Definition version_only_extended_card : extended_card_data :=
  {| ext_name := EmptyString; ext_description := EmptyString;
     ext_version := "2.0"; ext_skills := [] |}.

Definition echo_server (task_store_val : string) : server_data :=
  {| agent_executor_class_name := "EchoExecutor"; task_store := task_store_val |}.

(** A window whose forms hold the echo agent under the name [card_name],
    with [shown] in the generated-code view. *)
Definition echo_window (card_name shown : string) : MainWindow.t :=
  {| MainWindow.agent_card_widget :=
       {| AgentCardWidget.name_edit := card_name;
          AgentCardWidget.url_edit := "http://localhost:9000/";
          AgentCardWidget.version_edit := "1.0";
          AgentCardWidget.description_edit := EmptyString;
          AgentCardWidget.default_input_modes_edit := "text";
          AgentCardWidget.default_output_modes_edit := "text";
          AgentCardWidget.streaming_checkbox := true;
          AgentCardWidget.push_notifications_checkbox := false;
          AgentCardWidget.skills_layout :=
            [ {| SkillEntryWidget.id_edit := "echo";
                 SkillEntryWidget.name_edit := "Echo Skill";
                 SkillEntryWidget.description_edit := EmptyString;
                 SkillEntryWidget.tags_edit := "echo, demo";
                 SkillEntryWidget.examples_edit := EmptyString |} ] |};
     MainWindow.extended_agent_card_widget :=
       {| ExtendedAgentCardWidget.name_edit := EmptyString;
          ExtendedAgentCardWidget.description_edit := EmptyString;
          ExtendedAgentCardWidget.version_edit := EmptyString;
          ExtendedAgentCardWidget.extended_skills_layout := [] |};
     MainWindow.server_config_widget :=
       {| ServerConfigWidget.agent_executor_edit := "EchoExecutor";
          ServerConfigWidget.task_store_combo := ServerConfigWidget.InMemoryTaskStore;
          ServerConfigWidget.custom_task_store_edit := EmptyString |};
     MainWindow.agent_relationships_widget :=
       {| AgentRelationshipsWidget.relationships_layout := [] |};
     MainWindow.generated_code_text_edit := shown;
     MainWindow.current_tab := MainWindow.AgentCardTab |}.

(** ** Adding and removing entries, and the window at start *)

Module Ui.

(** [QVBoxLayout.addWidget]: the new widget goes last. *)
Definition addWidget {A} (layout : list A) (w : A) : list A :=
  app layout [w].

(** [QVBoxLayout.removeWidget] for the widget that stands at position [i]
    of the layout: the others keep their order.  A widget is told from the
    others by its position. *)
Definition removeWidget {A} (layout : list A) (i : nat) : list A :=
  app (firstn i layout) (skipn (S i) layout).

(** [SkillEntryWidget.init_ui]: every field starts empty. *)
Definition SkillEntryWidget_init_ui : SkillEntryWidget.t :=
  {| SkillEntryWidget.id_edit := EmptyString;
     SkillEntryWidget.name_edit := EmptyString;
     SkillEntryWidget.description_edit := EmptyString;
     SkillEntryWidget.tags_edit := EmptyString;
     SkillEntryWidget.examples_edit := EmptyString |}.

(** [RelationshipEntryWidget.init_ui] *)
Definition RelationshipEntryWidget_init_ui : RelationshipEntryWidget.t :=
  {| RelationshipEntryWidget.name_edit := EmptyString;
     RelationshipEntryWidget.url_edit := EmptyString |}.

(** [AgentCardWidget.init_ui]: empty fields, boxes not checked, no skill. *)
Definition AgentCardWidget_init_ui : AgentCardWidget.t :=
  {| AgentCardWidget.name_edit := EmptyString;
     AgentCardWidget.url_edit := EmptyString;
     AgentCardWidget.version_edit := EmptyString;
     AgentCardWidget.description_edit := EmptyString;
     AgentCardWidget.default_input_modes_edit := EmptyString;
     AgentCardWidget.default_output_modes_edit := EmptyString;
     AgentCardWidget.streaming_checkbox := false;
     AgentCardWidget.push_notifications_checkbox := false;
     AgentCardWidget.skills_layout := [] |}.

(** [ExtendedAgentCardWidget.init_ui] *)
Definition ExtendedAgentCardWidget_init_ui : ExtendedAgentCardWidget.t :=
  {| ExtendedAgentCardWidget.name_edit := EmptyString;
     ExtendedAgentCardWidget.description_edit := EmptyString;
     ExtendedAgentCardWidget.version_edit := EmptyString;
     ExtendedAgentCardWidget.extended_skills_layout := [] |}.

(** [ServerConfigWidget.init_ui]: the combo shows its first item. *)
Definition ServerConfigWidget_init_ui : ServerConfigWidget.t :=
  {| ServerConfigWidget.agent_executor_edit := EmptyString;
     ServerConfigWidget.task_store_combo := ServerConfigWidget.InMemoryTaskStore;
     ServerConfigWidget.custom_task_store_edit := EmptyString |}.

(** [AgentRelationshipsWidget.init_ui] *)
Definition AgentRelationshipsWidget_init_ui : AgentRelationshipsWidget.t :=
  {| AgentRelationshipsWidget.relationships_layout := [] |}.

(** [MainWindow.init_ui]: the four forms as they start, an empty view of
    the generated code, the first tab in front. *)
Definition MainWindow_init_ui : MainWindow.t :=
  {| MainWindow.agent_card_widget := AgentCardWidget_init_ui;
     MainWindow.extended_agent_card_widget := ExtendedAgentCardWidget_init_ui;
     MainWindow.server_config_widget := ServerConfigWidget_init_ui;
     MainWindow.agent_relationships_widget := AgentRelationshipsWidget_init_ui;
     MainWindow.generated_code_text_edit := EmptyString;
     MainWindow.current_tab := MainWindow.AgentCardTab |}.

(** The agent card form with another skills layout. *)
Definition with_skills_layout (self : AgentCardWidget.t)
    (layout : list SkillEntryWidget.t) : AgentCardWidget.t :=
  {| AgentCardWidget.name_edit := AgentCardWidget.name_edit self;
     AgentCardWidget.url_edit := AgentCardWidget.url_edit self;
     AgentCardWidget.version_edit := AgentCardWidget.version_edit self;
     AgentCardWidget.description_edit := AgentCardWidget.description_edit self;
     AgentCardWidget.default_input_modes_edit :=
       AgentCardWidget.default_input_modes_edit self;
     AgentCardWidget.default_output_modes_edit :=
       AgentCardWidget.default_output_modes_edit self;
     AgentCardWidget.streaming_checkbox := AgentCardWidget.streaming_checkbox self;
     AgentCardWidget.push_notifications_checkbox :=
       AgentCardWidget.push_notifications_checkbox self;
     AgentCardWidget.skills_layout := layout |}.

(** The extended card form with another skills layout. *)
Definition with_extended_skills_layout (self : ExtendedAgentCardWidget.t)
    (layout : list SkillEntryWidget.t) : ExtendedAgentCardWidget.t :=
  {| ExtendedAgentCardWidget.name_edit := ExtendedAgentCardWidget.name_edit self;
     ExtendedAgentCardWidget.description_edit :=
       ExtendedAgentCardWidget.description_edit self;
     ExtendedAgentCardWidget.version_edit := ExtendedAgentCardWidget.version_edit self;
     ExtendedAgentCardWidget.extended_skills_layout := layout |}.

(** [AgentCardWidget.add_skill_ui] *)
Definition add_skill_ui (self : AgentCardWidget.t) : AgentCardWidget.t :=
  let skill_widget := SkillEntryWidget_init_ui in
  with_skills_layout self (addWidget (AgentCardWidget.skills_layout self) skill_widget).

(** [ExtendedAgentCardWidget.add_extended_skill_ui] *)
Definition add_extended_skill_ui (self : ExtendedAgentCardWidget.t)
  : ExtendedAgentCardWidget.t :=
  let skill_widget := SkillEntryWidget_init_ui in
  with_extended_skills_layout self
    (addWidget (ExtendedAgentCardWidget.extended_skills_layout self) skill_widget).

(** [AgentRelationshipsWidget.add_relationship_ui] *)
Definition add_relationship_ui (self : AgentRelationshipsWidget.t)
  : AgentRelationshipsWidget.t :=
  let relationship_widget := RelationshipEntryWidget_init_ui in
  {| AgentRelationshipsWidget.relationships_layout :=
       addWidget (AgentRelationshipsWidget.relationships_layout self)
         relationship_widget |}.

(** [SkillEntryWidget.remove_self] of the entry at position [i] of the
    skills layout of the agent card form. *)
Definition skill_remove_self (i : nat) (self : AgentCardWidget.t) : AgentCardWidget.t :=
  with_skills_layout self (removeWidget (AgentCardWidget.skills_layout self) i).

(** [SkillEntryWidget.remove_self] of the entry at position [i] of the
    skills layout of the extended card form. *)
Definition extended_skill_remove_self (i : nat) (self : ExtendedAgentCardWidget.t)
  : ExtendedAgentCardWidget.t :=
  with_extended_skills_layout self
    (removeWidget (ExtendedAgentCardWidget.extended_skills_layout self) i).

(** [RelationshipEntryWidget.remove_self] of the entry at position [i]. *)
Definition relationship_remove_self (i : nat) (self : AgentRelationshipsWidget.t)
  : AgentRelationshipsWidget.t :=
  {| AgentRelationshipsWidget.relationships_layout :=
       removeWidget (AgentRelationshipsWidget.relationships_layout self) i |}.

(** The window after a change of its agent card form. *)
Definition on_agent_card (f : AgentCardWidget.t -> AgentCardWidget.t)
    (self : MainWindow.t) : MainWindow.t :=
  {| MainWindow.agent_card_widget := f (MainWindow.agent_card_widget self);
     MainWindow.extended_agent_card_widget := MainWindow.extended_agent_card_widget self;
     MainWindow.server_config_widget := MainWindow.server_config_widget self;
     MainWindow.agent_relationships_widget := MainWindow.agent_relationships_widget self;
     MainWindow.generated_code_text_edit := MainWindow.generated_code_text_edit self;
     MainWindow.current_tab := MainWindow.current_tab self |}.

(** The window after a change of its extended card form. *)
Definition on_extended_card (f : ExtendedAgentCardWidget.t -> ExtendedAgentCardWidget.t)
    (self : MainWindow.t) : MainWindow.t :=
  {| MainWindow.agent_card_widget := MainWindow.agent_card_widget self;
     MainWindow.extended_agent_card_widget := f (MainWindow.extended_agent_card_widget self);
     MainWindow.server_config_widget := MainWindow.server_config_widget self;
     MainWindow.agent_relationships_widget := MainWindow.agent_relationships_widget self;
     MainWindow.generated_code_text_edit := MainWindow.generated_code_text_edit self;
     MainWindow.current_tab := MainWindow.current_tab self |}.

(** The window after a change of its relationships form. *)
Definition on_relationships (f : AgentRelationshipsWidget.t -> AgentRelationshipsWidget.t)
    (self : MainWindow.t) : MainWindow.t :=
  {| MainWindow.agent_card_widget := MainWindow.agent_card_widget self;
     MainWindow.extended_agent_card_widget := MainWindow.extended_agent_card_widget self;
     MainWindow.server_config_widget := MainWindow.server_config_widget self;
     MainWindow.agent_relationships_widget := f (MainWindow.agent_relationships_widget self);
     MainWindow.generated_code_text_edit := MainWindow.generated_code_text_edit self;
     MainWindow.current_tab := MainWindow.current_tab self |}.

End Ui.

(** ** Notions used by the further properties *)

(** A field holds text when some character of it is not white space. *)
Definition has_text (s : string) : bool := negb (all_chars Py.isspace s).

(** A skill entry is filled when its id and its name hold text. *)
Definition skill_entry_filled (w : SkillEntryWidget.t) : bool :=
  has_text (SkillEntryWidget.id_edit w) && has_text (SkillEntryWidget.name_edit w).

(** The entry of [code] that opens the capabilities section: line 561
    appends it right after the import lines. *)
Definition capabilities_header : string :=
  Py.nl ++ "# --- Agent Capabilities Definition ---".

(** The lines of a text, as the view of the generated code shows them: the
    text split at every line feed. *)
Definition text_lines (text : string) : list string := Py.split Py.LF text.

(** The entries of [code] that open a section; each starts with a line
    feed, which shows as an empty line before the comment. *)
Definition section_headers : list string :=
  [ capabilities_header;
    Py.nl ++ "# --- Main Agent Card Skills Definition ---";
    Py.nl ++ "# --- Main Agent Card Definition ---";
    Py.nl ++ "# --- Extended Agent Card Definition (if any overrides/additions) ---";
    Py.nl ++ "# --- Request Handler Definition ---";
    Py.nl ++ "# --- Server Application Definition ---";
    Py.nl ++ "# --- Defined Agent Relationships (Informational) ---" ].

(** No field of a skill holds a line feed. *)
Definition skill_one_line (skill : skill_data) : Prop :=
  Py.contains Py.LF (skill_id skill) = false
  /\ Py.contains Py.LF (skill_name skill) = false
  /\ Py.contains Py.LF (skill_description skill) = false
  /\ Py.contains Py.LF (skill_tags skill) = false
  /\ Py.contains Py.LF (skill_examples skill) = false.

Definition relationship_one_line (rel : relationship_data) : Prop :=
  Py.contains Py.LF (rel_name rel) = false /\ Py.contains Py.LF (rel_url rel) = false.

(** No field of the configuration holds a line feed. *)
Definition config_one_line (acd : agent_card_data) (ecd : extended_card_data)
    (sd : server_data) (rels : list relationship_data) : Prop :=
  (Py.contains Py.LF (card_name acd) = false
   /\ Py.contains Py.LF (card_description acd) = false
   /\ Py.contains Py.LF (card_url acd) = false
   /\ Py.contains Py.LF (card_version acd) = false
   /\ Py.contains Py.LF (defaultInputModes acd) = false
   /\ Py.contains Py.LF (defaultOutputModes acd) = false
   /\ Forall skill_one_line (card_skills acd))
  /\ (Py.contains Py.LF (ext_name ecd) = false
      /\ Py.contains Py.LF (ext_description ecd) = false
      /\ Py.contains Py.LF (ext_version ecd) = false
      /\ Forall skill_one_line (ext_skills ecd))
  /\ (Py.contains Py.LF (agent_executor_class_name sd) = false
      /\ Py.contains Py.LF (task_store sd) = false)
  /\ Forall relationship_one_line rels.

(** [s.startswith(p)] *)
Fixpoint startswith (p s : string) : bool :=
  match p with
  | EmptyString => true
  | String a p' =>
      match s with
      | EmptyString => false
      | String b s' => Ascii.eqb a b && startswith p' s'
      end
  end.

(** A printable ASCII character other than the single quote and the
    backslash: [repr] leaves it as it is inside single quotes. *)
Definition plain_char (c : ascii) : bool :=
  let n := nat_of_ascii c in
  (32 <=? n)%nat && (n <? 127)%nat
  && negb (Ascii.eqb c Py.SQUOTE) && negb (Ascii.eqb c Py.BACKSLASH).

(** A token between single quotes. *)
Definition single_quoted (t : string) : string :=
  String Py.SQUOTE (t ++ Py.chr Py.SQUOTE).

(** The line of the generated code that gives the id of a skill. *)
Definition skill_id_line (skill : skill_data) : string :=
  "        id=" ++ format_single_string_for_code (skill_id skill) ++ ",".

(** The comment line of the generated code for one relationship. *)
Definition relationship_line (rel : relationship_data) : string :=
  "#    '" ++ rel_name rel ++ "': '" ++ rel_url rel ++ "',".

(** * Properties of the string primitives *)

(** Membership of an explicit line in an explicit list of lines. *)
Ltac find_line :=
  cbn [In request_handler_lines skill_lines agent_card_lines];
  repeat first [ left; reflexivity | right ].


Lemma append_assoc (a b c : string) : (a ++ b) ++ c = a ++ (b ++ c).
Proof. induction a as [|x a IH]; simpl; congruence. Qed.

Lemma truthy_true_iff (s : string) : Py.truthy s = true <-> s <> EmptyString.
Proof. destruct s; simpl; split; congruence. Qed.

Lemma truthy_false_iff (s : string) : Py.truthy s = false <-> s = EmptyString.
Proof. destruct s; simpl; split; congruence. Qed.

Lemma list_truthy_false_iff {A} (l : list A) : list_truthy l = false <-> l = [].
Proof. destruct l; simpl; split; congruence. Qed.

Lemma all_chars_lstrip P s : all_chars P s = true -> all_chars P (Py.lstrip s) = true.
Proof.
  induction s as [|c r IH]; simpl; auto.
  intro H. apply andb_true_iff in H as [Hc Hr].
  destruct (Py.isspace c); auto. simpl. now rewrite Hc, Hr.
Qed.

Lemma all_chars_rstrip P s : all_chars P s = true -> all_chars P (Py.rstrip s) = true.
Proof.
  induction s as [|c r IH]; simpl; auto.
  intro H. apply andb_true_iff in H as [Hc Hr].
  specialize (IH Hr).
  destruct (Py.rstrip r) as [|d r'].
  - destruct (Py.isspace c); simpl; auto. now rewrite Hc.
  - simpl in *. now rewrite Hc, IH.
Qed.

Lemma all_chars_strip P s : all_chars P s = true -> all_chars P (Py.strip s) = true.
Proof. intro H. unfold Py.strip. now apply all_chars_rstrip, all_chars_lstrip. Qed.

Lemma lstrip_all_space s : all_chars Py.isspace s = true -> Py.lstrip s = EmptyString.
Proof.
  induction s as [|c r IH]; simpl; auto.
  intro H. apply andb_true_iff in H as [Hc Hr]. rewrite Hc. auto.
Qed.

Lemma lstrip_empty_all_space s : Py.lstrip s = EmptyString -> all_chars Py.isspace s = true.
Proof.
  induction s as [|c r IH]; simpl; auto.
  destruct (Py.isspace c) eqn:Hc; simpl; auto. discriminate.
Qed.

Lemma rstrip_empty_all_space s : Py.rstrip s = EmptyString -> all_chars Py.isspace s = true.
Proof.
  induction s as [|c r IH]; simpl; auto.
  destruct (Py.rstrip r) as [|d r'].
  - destruct (Py.isspace c) eqn:Hc; simpl; auto. discriminate.
  - discriminate.
Qed.

(** A string is stripped to nothing exactly when it is all white space. *)
Lemma strip_empty_iff s : Py.strip s = EmptyString <-> all_chars Py.isspace s = true.
Proof.
  unfold Py.strip. split.
  - intro H. apply rstrip_empty_all_space in H.
    induction s as [|c r IH]; simpl in *; auto.
    destruct (Py.isspace c) eqn:Hc; simpl in *; auto.
    rewrite Hc in H. discriminate.
  - intro H. now rewrite lstrip_all_space.
Qed.

Lemma lstrip_head s :
  Py.lstrip s = EmptyString
  \/ exists c r, Py.lstrip s = String c r /\ Py.isspace c = false.
Proof.
  induction s as [|c r IH]; simpl; auto.
  destruct (Py.isspace c) eqn:Hc; auto. right. eauto.
Qed.

Lemma rstrip_keeps_head c r :
  Py.isspace c = false -> exists r', Py.rstrip (String c r) = String c r'.
Proof.
  intro Hc. simpl. destruct (Py.rstrip r); rewrite ?Hc; eexists; reflexivity.
Qed.

Lemma rstrip_idem s : Py.rstrip (Py.rstrip s) = Py.rstrip s.
Proof.
  induction s as [|c r IH]; simpl; auto.
  destruct (Py.rstrip r) as [|d r'] eqn:Hr.
  - destruct (Py.isspace c) eqn:Hc; simpl; auto. now rewrite Hc.
  - remember (String d r') as R eqn:HR. simpl. rewrite IH. now subst R.
Qed.

Lemma lstrip_strip s : Py.lstrip (Py.strip s) = Py.strip s.
Proof.
  unfold Py.strip. destruct (lstrip_head s) as [H | (c & r & H & Hc)]; rewrite H; auto.
  destruct (rstrip_keeps_head c r Hc) as [r' Hr]. rewrite Hr. simpl. now rewrite Hc.
Qed.

Lemma rstrip_strip s : Py.rstrip (Py.strip s) = Py.strip s.
Proof. unfold Py.strip. apply rstrip_idem. Qed.

(** No piece of a split holds a separator. *)
Lemma split_on_no_separator f s :
  Forall (fun p => all_chars (fun c => negb (f c)) p = true) (Py.split_on f s).
Proof.
  induction s as [|c r IH]; simpl.
  - constructor; auto.
  - destruct (f c) eqn:Hc.
    + constructor; auto.
    + destruct (Py.split_on f r) as [|p ps].
      * constructor; auto. simpl. now rewrite Hc.
      * inversion IH; subst. constructor; auto. simpl. now rewrite Hc.
Qed.

(** The pieces of a text keep the property every character of the text has. *)
Lemma split_on_all_chars P f s :
  all_chars P s = true -> Forall (fun p => all_chars P p = true) (Py.split_on f s).
Proof.
  induction s as [|c r IH]; simpl; intro H.
  - constructor; auto.
  - apply andb_true_iff in H as [Hc Hr]. specialize (IH Hr).
    destruct (f c).
    + constructor; auto.
    + destruct (Py.split_on f r) as [|p ps].
      * constructor; auto. simpl. now rewrite Hc.
      * inversion IH; subst. constructor; auto. simpl. now rewrite Hc.
Qed.

(** A split has one piece more than the text has separators. *)
Lemma split_on_length f s :
  List.length (Py.split_on f s)
  = S (List.length (filter f (list_ascii_of_string s))).
Proof.
  induction s as [|c r IH]; simpl; auto.
  destruct (f c); simpl; [now rewrite IH|].
  destruct (Py.split_on f r); simpl in *; congruence.
Qed.

Lemma map_strip_filter (l : list string) :
  map Py.strip (filter (fun item => Py.truthy (Py.strip item)) l)
  = filter Py.truthy (map Py.strip l).
Proof.
  induction l as [|x l IH]; simpl; auto.
  destruct (Py.truthy (Py.strip x)); simpl; now rewrite IH.
Qed.

Lemma items_of_parseList raw : items_of raw = parseList raw.
Proof. unfold items_of, parseList. apply map_strip_filter. Qed.

Lemma parseList_clean raw : Forall clean_token (parseList raw).
Proof.
  unfold parseList. apply Forall_forall. intros t Ht.
  apply filter_In in Ht as [Hin Hne]. apply in_map_iff in Hin as (p & <- & Hp).
  repeat split.
  - now apply truthy_true_iff.
  - apply lstrip_strip.
  - apply rstrip_strip.
  - apply all_chars_strip.
    pose proof (split_on_no_separator is_list_separator raw) as HF.
    rewrite Forall_forall in HF. now apply HF.
Qed.

Lemma parseList_blank raw :
  (forall p, In p (Py.split_on is_list_separator raw) -> Py.strip p = EmptyString)
  -> parseList raw = [].
Proof.
  unfold parseList. induction (Py.split_on is_list_separator raw) as [|p ps IH]; simpl; auto.
  intro H. rewrite (H p) by auto. simpl. apply IH. intros q Hq. apply H. auto.
Qed.

Lemma parseList_of_blank_text raw : Py.strip raw = EmptyString -> parseList raw = [].
Proof.
  intro H. apply parseList_blank. intros p Hp.
  apply strip_empty_iff. apply strip_empty_iff in H.
  pose proof (split_on_all_chars Py.isspace is_list_separator raw H) as HF.
  rewrite Forall_forall in HF. now apply HF.
Qed.


Lemma format_single_string_literal s :
  format_single_string_for_code s = string_literal s.
Proof.
  unfold format_single_string_for_code, string_literal.
  destruct (Py.contains Py.LF s); reflexivity.
Qed.

(** * The list-parsing helper *)

(** C3.  On every raw text the token list of [format_string_list_for_code]
    is the one the specification describes: the text is split on commas and
    newlines, each piece trimmed, the empty ones dropped and the order kept;
    every token left is non-empty, trimmed and free of separators; the
    helper returns that list rendered as a list literal, and when no piece
    has a non-blank character the list is empty and the rendering is [[]].
    The three examples of the specification evaluate as it says. *)
Theorem parse_list_helper :
  (forall raw,
      items_of raw = parseList raw
      /\ Forall clean_token (items_of raw)
      /\ format_string_list_for_code raw = Py.repr_list (items_of raw)
      /\ ((forall p, In p (Py.re_split_comma_newline raw) -> Py.strip p = EmptyString)
          -> items_of raw = [] /\ format_string_list_for_code raw = "[]"))
  /\ (items_of ("a, b" ++ Py.nl ++ "c") = ["a"; "b"; "c"]
      /\ format_string_list_for_code ("a, b" ++ Py.nl ++ "c") = "['a', 'b', 'c']")
  /\ (items_of "  " = [] /\ format_string_list_for_code "  " = "[]")
  /\ (items_of "x,,y" = ["x"; "y"]
      /\ format_string_list_for_code "x,,y" = "['x', 'y']").
Proof.
  split; [|repeat split; reflexivity].
  intro raw.
  assert (Hfmt : format_string_list_for_code raw = Py.repr_list (items_of raw)).
  { unfold format_string_list_for_code.
    destruct (Py.truthy (Py.strip raw)) eqn:Hs; simpl.
    - now rewrite map_id.
    - apply truthy_false_iff in Hs.
      rewrite items_of_parseList, (parseList_of_blank_text raw Hs). reflexivity. }
  repeat split.
  - apply items_of_parseList.
  - rewrite items_of_parseList. apply parseList_clean.
  - exact Hfmt.
  - rewrite items_of_parseList. now apply parseList_blank.
  - rewrite Hfmt, items_of_parseList, parseList_blank; auto.
Qed.

Lemma parse_list_helper_witness :
  items_of "  " = [] /\ format_string_list_for_code "  " = "[]".
Proof.
  apply (proj1 parse_list_helper "  ").
  intros p [<- | []]. reflexivity.
Defined.

(** * The quoting rule *)



(** * Validation *)

Lemma ext_skills_guard card skills :
  (if list_truthy skills then validate_skills card 0 skills else None)
  = validate_skills card 0 skills.
Proof. destruct skills; reflexivity. Qed.

Lemma first_failure_skills card rest skills : forall i,
  hd_error (map snd (filter (fun chk : bool * validation_error => negb (fst chk))
                       (skill_checks card i skills ++ rest)%list))
  = match validate_skills card i skills with
    | Some e => Some e
    | None => hd_error (map snd (filter (fun chk => negb (fst chk)) rest))
    end.
Proof.
  induction skills as [|skill skills IH]; intro i; simpl; auto.
  destruct (Py.truthy (skill_id skill)); simpl; auto.
  destruct (Py.truthy (skill_name skill)); simpl; auto.
Qed.

Lemma validation_checks_first_failure acd ecd sd combo_text :
  validation_checks acd ecd sd combo_text
  = hd_error (all_failures acd ecd sd combo_text).
Proof.
  unfold validation_checks, all_failures, canonical_checks.
  rewrite ext_skills_guard. simpl.
  destruct (Py.truthy (card_name acd)); simpl; auto.
  destruct (Py.truthy (card_url acd)); simpl; auto.
  rewrite first_failure_skills.
  destruct (validate_skills AgentCard 0 (card_skills acd)); auto.
  rewrite first_failure_skills.
  destruct (validate_skills ExtendedAgentCard 0 (ext_skills ecd)); auto.
  simpl.
  destruct (Py.truthy (agent_executor_class_name sd)); simpl; auto.
  destruct (combo_text =? "Custom"), (Py.truthy (task_store sd)); reflexivity.
Qed.

(** C1.  The validation checks report the first failure of the canonical
    order (card name, card url, the skills of the card in order with id
    before name, the skills of the extended card likewise, the executor
    class name, the custom task-store path when the custom option is
    selected): the reported failure is the head of the full report.  In
    particular a configuration whose card name or url is empty gets a
    failure located at the agent card, whose message starts with
    [Agent Card:], whatever the rest of the configuration holds. *)
Theorem validation_canonical_order acd ecd sd combo_text :
  validation_checks acd ecd sd combo_text
  = hd_error (all_failures acd ecd sd combo_text)
  /\ (card_name acd = EmptyString \/ card_url acd = EmptyString ->
      exists e,
        validation_checks acd ecd sd combo_text = Some e
        /\ e = (if Py.truthy (card_name acd) then UrlRequired else NameRequired)
        /\ location_of e = AtAgentCard
        /\ String.prefix "Agent Card:" (warning_text e) = true).
Proof.
  split; [apply validation_checks_first_failure|].
  unfold validation_checks. intros [H | H]; rewrite H; simpl.
  - exists NameRequired. auto.
  - destruct (Py.truthy (card_name acd)).
    + exists UrlRequired. auto.
    + exists NameRequired. auto.
Qed.

Lemma validation_canonical_order_witness :
  exists e,
    validation_checks nameless_card no_extended_card
      {| agent_executor_class_name := EmptyString; task_store := EmptyString |} "Custom"
    = Some e
    /\ e = NameRequired
    /\ location_of e = AtAgentCard
    /\ String.prefix "Agent Card:" (warning_text e) = true.
Proof.
  apply (proj2 (validation_canonical_order nameless_card no_extended_card
                  {| agent_executor_class_name := EmptyString;
                     task_store := EmptyString |} "Custom")).
  left. reflexivity.
Defined.

(** The loop stops at the first skill that is not valid. *)
Lemma validate_skills_first card skills : forall k i skill,
  nth_error skills i = Some skill ->
  skill_valid skill = false ->
  forallb skill_valid (firstn i skills) = true ->
  validate_skills card k skills = Some (skill_failure card (k + i) skill).
Proof.
  induction skills as [|s0 skills IH]; intros k i skill Hnth Hbad Hpre.
  - destruct i; discriminate.
  - destruct i as [|i]; simpl in *.
    + inversion Hnth; subst. unfold skill_valid in Hbad. unfold skill_failure.
      rewrite Nat.add_0_r.
      destruct (Py.truthy (skill_id skill)); simpl in *; auto. now rewrite Hbad.
    + apply andb_true_iff in Hpre as [H0 Hpre]. unfold skill_valid in H0.
      apply andb_true_iff in H0 as [Hid Hname]. rewrite Hid, Hname. simpl.
      rewrite (IH (S k) i skill Hnth Hbad Hpre). f_equal. f_equal. lia.
Qed.

Lemma validate_skills_all_valid card skills : forall k,
  forallb skill_valid skills = true -> validate_skills card k skills = None.
Proof.
  induction skills as [|s0 skills IH]; intros k H; simpl in *; auto.
  apply andb_true_iff in H as [H0 H]. unfold skill_valid in H0.
  apply andb_true_iff in H0 as [Hid Hname]. rewrite Hid, Hname. simpl. auto.
Qed.

(** A failure of the loop is the failure of a skill that is not valid. *)
Lemma validate_skills_sound card skills : forall k e,
  validate_skills card k skills = Some e ->
  exists j skill,
    nth_error skills j = Some skill /\ skill_valid skill = false
    /\ forallb skill_valid (firstn j skills) = true
    /\ e = skill_failure card (k + j) skill.
Proof.
  induction skills as [|s0 skills IH]; intros k e H; simpl in H; [discriminate|].
  destruct (Py.truthy (skill_id s0)) eqn:Hid; simpl in H.
  - destruct (Py.truthy (skill_name s0)) eqn:Hname; simpl in H.
    + destruct (IH _ _ H) as (j & skill & Hnth & Hbad & Hpre & ->).
      assert (H0 : skill_valid s0 = true) by (unfold skill_valid; now rewrite Hid, Hname).
      exists (S j), skill. simpl. rewrite H0.
      repeat split; auto. f_equal. lia.
    + inversion H; subst. exists 0, s0. unfold skill_valid, skill_failure.
      rewrite Hid, Hname, Nat.add_0_r. auto.
  - inversion H; subst. exists 0, s0. unfold skill_valid, skill_failure.
    rewrite Hid, Nat.add_0_r. auto.
Qed.

Lemma skill_failure_location card i skill :
  location_of (skill_failure card i skill) = AtSkill card i.
Proof. unfold skill_failure. destruct (Py.truthy (skill_id skill)); reflexivity. Qed.

(** C2, as the code has it.  A skill with an empty id or an empty name at
    index [i] of a skills list is reported, tagged with that list and with
    [i] (the message shows it counted from 1, as [Skill #i+1]), when every
    check before it in the canonical order passes: the card name and url
    are not empty, the skills before it in the same list are valid and, for
    the list of the extended card, the skills of the card are valid.  And
    whatever the configuration, a reported skill failure is the failure of a
    skill that is not valid, all skills before it in its list being valid:
    a valid skill triggers none. *)
Theorem first_invalid_skill_reported acd ecd sd combo_text :
  (forall card i skill,
      card_name acd <> EmptyString ->
      card_url acd <> EmptyString ->
      (card = ExtendedAgentCard -> forallb skill_valid (card_skills acd) = true) ->
      nth_error (skills_of card acd ecd) i = Some skill ->
      skill_id skill = EmptyString \/ skill_name skill = EmptyString ->
      forallb skill_valid (firstn i (skills_of card acd ecd)) = true ->
      validation_checks acd ecd sd combo_text = Some (skill_failure card i skill)
      /\ location_of (skill_failure card i skill) = AtSkill card i
      /\ warning_text (skill_failure card i skill)
         = (match card with
            | AgentCard => "Agent Card - Skill #"
            | ExtendedAgentCard => "Extended Agent Card - Skill #"
            end)
           ++ Py.str_of_nat (i + 1)
           ++ (if Py.truthy (skill_id skill)
               then ": Name is required." else ": ID is required."))
  /\ (forall card j e,
         validation_checks acd ecd sd combo_text = Some e ->
         location_of e = AtSkill card j ->
         exists skill,
           nth_error (skills_of card acd ecd) j = Some skill
           /\ skill_valid skill = false
           /\ forallb skill_valid (firstn j (skills_of card acd ecd)) = true
           /\ e = skill_failure card j skill).
Proof.
  split.
  - intros card i skill Hname Hurl Hbase Hnth Hbad Hpre.
    assert (Hinv : skill_valid skill = false).
    { unfold skill_valid. destruct Hbad as [-> | ->]; simpl; auto using andb_false_r. }
    split; [|split].
    + unfold validation_checks.
      apply truthy_true_iff in Hname, Hurl. rewrite Hname, Hurl. simpl.
      destruct card; simpl in *.
      * now rewrite (validate_skills_first AgentCard _ 0 i skill Hnth Hinv Hpre).
      * rewrite (validate_skills_all_valid AgentCard _ 0 (Hbase eq_refl)).
        rewrite ext_skills_guard.
        now rewrite (validate_skills_first ExtendedAgentCard _ 0 i skill Hnth Hinv Hpre).
    + apply skill_failure_location.
    + unfold skill_failure, warning_text, skill_prefix.
      destruct (Py.truthy (skill_id skill)), card; now rewrite ?append_assoc.
  - intros card j e H Hloc. unfold validation_checks in H.
    destruct (Py.truthy (card_name acd)); simpl in H;
      [|inversion H; subst; discriminate].
    destruct (Py.truthy (card_url acd)); simpl in H;
      [|inversion H; subst; discriminate].
    destruct (validate_skills AgentCard 0 (card_skills acd)) as [e0|] eqn:Hb.
    + inversion H; subst e0.
      destruct (validate_skills_sound _ _ _ _ Hb) as (j' & skill & Hnth & Hbad & Hpre & ->).
      rewrite skill_failure_location in Hloc. inversion Hloc; subst. eauto.
    + rewrite ext_skills_guard in H.
      destruct (validate_skills ExtendedAgentCard 0 (ext_skills ecd)) as [e0|] eqn:He.
      * inversion H; subst e0.
        destruct (validate_skills_sound _ _ _ _ He) as (j' & skill & Hnth & Hbad & Hpre & ->).
        rewrite skill_failure_location in Hloc. inversion Hloc; subst. eauto.
      * destruct (Py.truthy (agent_executor_class_name sd)); simpl in H;
          [|inversion H; subst; discriminate].
        destruct ((combo_text =? "Custom") && negb (Py.truthy (task_store sd)));
          inversion H; subst; discriminate.
Qed.

Lemma first_invalid_skill_reported_witness :
  validation_checks (echo_card [echo_skill]) 
    {| ext_name := EmptyString; ext_description := EmptyString;
       ext_version := EmptyString; ext_skills := [echo_skill; blank_skill] |}
    (echo_server "InMemoryTaskStore") "InMemoryTaskStore"
  = Some (SkillIdRequired ExtendedAgentCard 1)
  /\ location_of (SkillIdRequired ExtendedAgentCard 1) = AtSkill ExtendedAgentCard 1
  /\ warning_text (SkillIdRequired ExtendedAgentCard 1)
     = "Extended Agent Card - Skill #2: ID is required.".
Proof.
  apply (proj1 (first_invalid_skill_reported (echo_card [echo_skill])
                  {| ext_name := EmptyString; ext_description := EmptyString;
                     ext_version := EmptyString;
                     ext_skills := [echo_skill; blank_skill] |}
                  (echo_server "InMemoryTaskStore") "InMemoryTaskStore")
           ExtendedAgentCard 1 blank_skill).
  - discriminate.
  - discriminate.
  - reflexivity.
  - reflexivity.
  - left. reflexivity.
  - reflexivity.
Defined.

(** C2, as the specification states it, fails: validation stops at the
    first failure.  With two blank skills the skill at index 1 has an empty
    id, the only failure reported is the one of index 0, and the failure of
    index 1 appears in the full report alone. *)
Lemma second_invalid_skill_not_reported :
  (nth_error (card_skills (echo_card [blank_skill; blank_skill])) 1 = Some blank_skill
   /\ skill_id blank_skill = EmptyString)
  /\ validation_checks (echo_card [blank_skill; blank_skill]) no_extended_card
       (echo_server "InMemoryTaskStore") "InMemoryTaskStore"
     = Some (SkillIdRequired AgentCard 0)
  /\ location_of (SkillIdRequired AgentCard 0) <> AtSkill AgentCard 1
  /\ In (SkillIdRequired AgentCard 1)
       (all_failures (echo_card [blank_skill; blank_skill]) no_extended_card
          (echo_server "InMemoryTaskStore") "InMemoryTaskStore").
Proof.
  repeat split; try reflexivity.
  - discriminate.
  - simpl. auto.
Qed.

(** * The task store *)

Lemma rsplit1_plain sep s : Py.contains sep s = false -> Py.rsplit1 sep s = [s].
Proof.
  induction s as [|c r IH]; simpl; auto.
  intro H. apply orb_false_iff in H as [Hc Hr]. now rewrite (IH Hr), Hc.
Qed.

Lemma split_plain sep s : Py.contains sep s = false -> Py.split sep s = [s].
Proof.
  unfold Py.split. induction s as [|c r IH]; simpl; auto.
  intro H. apply orb_false_iff in H as [Hc Hr].
  rewrite Ascii.eqb_sym, Hc. now rewrite (IH Hr).
Qed.

(** On a text that holds the separator, [rsplit] with one split and the
    last item of [split] agree on the final segment, which starts after the
    last separator. *)
Lemma final_segment sep s :
  Py.contains sep s = true ->
  exists a b,
    Py.rsplit1 sep s = [a; b]
    /\ Py.last_item (Py.split sep s) = Some b
    /\ s = a ++ String sep b
    /\ Py.contains sep b = false
    /\ exists p q ps, Py.split sep s = p :: q :: ps.
Proof.
  unfold Py.split. induction s as [|c r IH]; simpl; [discriminate|].
  intro H. destruct (Py.contains sep r) eqn:Hr.
  - destruct (IH eq_refl) as (a & b & Hrs & Hlast & Hs & Hb & p & q & ps & Hsp).
    exists (String c a), b. rewrite Hrs, Hsp in *. subst r.
    repeat split; auto.
    + destruct (Ascii.eqb sep c); simpl in *; auto.
    + destruct (Ascii.eqb sep c); eauto.
  - rewrite orb_false_r in H. rewrite (rsplit1_plain _ _ Hr), H.
    rewrite Ascii.eqb_sym, H. apply Ascii.eqb_eq in H. subst c.
    pose proof (split_plain _ _ Hr) as Hsp. unfold Py.split in Hsp. rewrite Hsp.
    exists EmptyString, r. repeat split; eauto.
Qed.

Lemma last_item_split_some sep s : exists x, Py.last_item (Py.split sep s) = Some x.
Proof.
  destruct (Py.contains sep s) eqn:H.
  - destruct (final_segment _ _ H) as (a & b & _ & Hl & _). eauto.
  - rewrite (split_plain _ _ H). simpl. eauto.
Qed.

Lemma dotted_not_reserved path :
  Py.contains "."%char path = true ->
  (path =? "InMemoryTaskStore") = false /\ (path =? "Custom") = false.
Proof.
  intro H. split; apply String.eqb_neq; intro E; subst path; discriminate.
Qed.

Lemma custom_import_dotted path a b :
  Py.rsplit1 "."%char path = [a; b] ->
  Py.contains "."%char path = true ->
  custom_import_lines path = Some ["from " ++ a ++ " import " ++ b].
Proof.
  intros Hrs H. unfold custom_import_lines.
  destruct (dotted_not_reserved _ H) as [-> ->]. rewrite H, Hrs. reflexivity.
Qed.

Lemma custom_import_undotted path :
  Py.contains "."%char path = false -> custom_import_lines path = Some [].
Proof.
  intro H. unfold custom_import_lines. rewrite H, andb_false_r. reflexivity.
Qed.

Lemma custom_import_total path : exists lines, custom_import_lines path = Some lines.
Proof.
  destruct (Py.contains "."%char path) eqn:H.
  - destruct (final_segment _ _ H) as (a & b & Hrs & _).
    rewrite (custom_import_dotted _ _ _ Hrs H). eauto.
  - rewrite (custom_import_undotted _ H). eauto.
Qed.

Lemma task_store_instance_total path :
  exists inst, task_store_instance_code path = Some inst.
Proof.
  unfold task_store_instance_code.
  destruct (path =? "InMemoryTaskStore"); eauto.
  destruct (path =? "Custom"); simpl; eauto.
  destruct (last_item_split_some "."%char path) as [x ->]. simpl. eauto.
Qed.

Lemma code_lines_handler_line ci inst acd ecd sd rels x :
  In x (request_handler_lines sd inst) -> In x (code_lines ci inst acd ecd sd rels).
Proof.
  intro H. unfold code_lines. rewrite !in_app_iff. do 6 right. left. exact H.
Qed.

Lemma code_lines_task_store ci inst acd ecd sd rels :
  In ("    task_store=" ++ inst ++ ",") (code_lines ci inst acd ecd sd rels).
Proof. apply code_lines_handler_line. find_line. Qed.

Lemma custom_import_shape path lines :
  custom_import_lines path = Some lines ->
  lines = [] \/ exists a b, lines = ["from " ++ a ++ " import " ++ b].
Proof.
  destruct (Py.contains "."%char path) eqn:H.
  - destruct (final_segment _ _ H) as (a & b & Hrs & _).
    rewrite (custom_import_dotted _ _ _ Hrs H). intro E.
    injection E as <-. right. exists a, b. reflexivity.
  - rewrite (custom_import_undotted _ H). intro E. injection E as <-. now left.
Qed.

Lemma filter_flat_map_nil {A B} (p : B -> bool) (f : A -> list B) (l : list A) :
  (forall x, filter p (f x) = []) -> filter p (flat_map f l) = [].
Proof.
  intro H. induction l as [|x l IH]; simpl; auto. now rewrite filter_app, H, IH.
Qed.

Lemma filter_flat_map_one {A B} (p : B -> bool) (f : A -> list B) (g : A -> B)
    (l : list A) :
  (forall x, filter p (f x) = [g x]) -> filter p (flat_map f l) = map g l.
Proof.
  intro H. induction l as [|x l IH]; simpl; auto. now rewrite filter_app, H, IH.
Qed.

Lemma filter_map_nil {A B} (p : B -> bool) (f : A -> B) (l : list A) :
  (forall x, p (f x) = false) -> filter p (map f l) = [].
Proof.
  intro H. induction l as [|x l IH]; simpl; auto. now rewrite H.
Qed.

Lemma filter_map_all {A B} (p : B -> bool) (f : A -> B) (l : list A) :
  (forall x, p (f x) = true) -> filter p (map f l) = map f l.
Proof.
  intro H. induction l as [|x l IH]; simpl; auto. now rewrite H, IH.
Qed.

(** The list [code] as the nine sections, the tests on the lists of skills,
    of update parts and of relationships decided. *)
Ltac unfold_code_lines :=
  unfold code_lines, agent_skills_lines, extended_card_lines, extended_skills_lines,
    extended_card_binding_lines, relationships_lines.

Ltac case_code_lines acd ecd rels :=
  destruct (card_skills acd), (ext_skills ecd), rels,
    (list_truthy (update_str_parts ecd));
  cbn [list_truthy].

(** The one entry of [code] that starts with [    task_store=] is the one
    the request handler section appends. *)
Lemma task_store_entries ci inst acd ecd sd rels :
  filter (startswith "    task_store=") ci = [] ->
  filter (startswith "    task_store=") (code_lines ci inst acd ecd sd rels)
  = ["    task_store=" ++ inst ++ ","].
Proof.
  intro Hci. unfold_code_lines. rewrite !filter_app, Hci.
  case_code_lines acd ecd rels; simpl;
    rewrite ?filter_app, ?filter_flat_map_nil, ?filter_map_nil by reflexivity;
    reflexivity.
Qed.

Lemma task_store_line_unique ci inst acd ecd sd rels line :
  filter (startswith "    task_store=") ci = [] ->
  startswith "    task_store=" line = true ->
  In line (code_lines ci inst acd ecd sd rels) ->
  line = "    task_store=" ++ inst ++ ",".
Proof.
  intros Hci Hp Hin.
  assert (H : In line (filter (startswith "    task_store=")
                         (code_lines ci inst acd ecd sd rels))).
  { apply filter_In. auto. }
  rewrite (task_store_entries _ _ _ _ _ _ Hci) in H. destruct H as [<- | []]. reflexivity.
Qed.

(** What the generation does with a value that holds a dot. *)
Lemma dotted_generation acd ecd sd rels :
  Py.contains "."%char (task_store sd) = true ->
  exists modname cls,
    task_store sd = modname ++ "." ++ cls
    /\ Py.contains "."%char cls = false
    /\ custom_import_lines (task_store sd)
       = Some ["from " ++ modname ++ " import " ++ cls]
    /\ task_store_instance_code (task_store sd) = Some (cls ++ "()")
    /\ code_generation acd ecd sd rels
       = Some (code_lines ["from " ++ modname ++ " import " ++ cls] (cls ++ "()")
                 acd ecd sd rels).
Proof.
  intro H.
  destruct (final_segment _ _ H) as (a & b & Hrs & Hlast & Hs & Hb & _).
  pose proof (custom_import_dotted _ _ _ Hrs H) as Himp.
  assert (Hinst : task_store_instance_code (task_store sd) = Some (b ++ "()")).
  { unfold task_store_instance_code.
    destruct (dotted_not_reserved _ H) as [-> ->]. simpl. now rewrite Hlast. }
  exists a, b. split; [exact Hs|]. repeat split; auto.
  unfold code_generation. rewrite Himp, Hinst. reflexivity.
Qed.

(** C4.  For a task-store value that holds a dot, the generated code has
    exactly one import line after the three fixed ones, [from <module>
    import <Class>], where the value is [<module>.<Class>] and [<Class>]
    holds no dot (so the module is all that precedes the last dot): the
    list [code] starts with the three fixed imports, then that line, then
    the header of the capabilities section; and the request handler in
    [code] is given [<Class>()].  For [mypkg.mymodule.MyStore] the line is
    [from mypkg.mymodule import MyStore] and the instance is [MyStore()]. *)
Theorem dotted_task_store_import :
  (forall acd ecd sd rels,
      Py.contains "."%char (task_store sd) = true ->
      exists modname cls,
        task_store sd = modname ++ "." ++ cls
        /\ Py.contains "."%char cls = false
        /\ custom_import_lines (task_store sd)
           = Some ["from " ++ modname ++ " import " ++ cls]
        /\ task_store_instance_code (task_store sd) = Some (cls ++ "()")
        /\ exists code,
             code_generation acd ecd sd rels = Some code
             /\ firstn 5 code
                = app import_lines
                    ["from " ++ modname ++ " import " ++ cls; capabilities_header]
             /\ In ("    task_store=" ++ (cls ++ "()") ++ ",") code
             /\ filter (startswith "    task_store=") code
                = ["    task_store=" ++ (cls ++ "()") ++ ","])
  /\ (custom_import_lines "mypkg.mymodule.MyStore"
      = Some ["from mypkg.mymodule import MyStore"]
      /\ task_store_instance_code "mypkg.mymodule.MyStore" = Some "MyStore()")
  /\ (exists code,
         code_generation (echo_card [echo_skill]) no_extended_card
           (echo_server "mypkg.mymodule.MyStore") [] = Some code
         /\ firstn 5 code
            = app import_lines ["from mypkg.mymodule import MyStore"; capabilities_header]
         /\ In "    task_store=MyStore()," code).
Proof.
  split; [|split; [split; reflexivity|]].
  - intros acd ecd sd rels H.
    destruct (dotted_generation acd ecd sd rels H)
      as (a & b & Hs & Hb & Himp & Hinst & Hcode).
    exists a, b. split; [exact Hs|]. repeat split; auto.
    eexists. split; [exact Hcode|]. split; [reflexivity|].
    split; [apply code_lines_task_store|]. now apply task_store_entries.
  - eexists. split; [reflexivity|]. split; [reflexivity|].
    apply (code_lines_task_store _ "MyStore()").
Qed.

Lemma dotted_task_store_import_witness :
  exists modname cls,
    "mypkg.mymodule.MyStore" = modname ++ "." ++ cls
    /\ Py.contains "."%char cls = false
    /\ custom_import_lines "mypkg.mymodule.MyStore"
       = Some ["from " ++ modname ++ " import " ++ cls]
    /\ task_store_instance_code "mypkg.mymodule.MyStore" = Some (cls ++ "()")
    /\ exists code,
         code_generation (echo_card [echo_skill]) no_extended_card
           (echo_server "mypkg.mymodule.MyStore") [] = Some code
         /\ firstn 5 code
            = app import_lines
                ["from " ++ modname ++ " import " ++ cls; capabilities_header]
         /\ In ("    task_store=" ++ (cls ++ "()") ++ ",") code
         /\ filter (startswith "    task_store=") code
            = ["    task_store=" ++ (cls ++ "()") ++ ","].
Proof.
  apply (proj1 dotted_task_store_import (echo_card [echo_skill]) no_extended_card
           (echo_server "mypkg.mymodule.MyStore") []).
  reflexivity.
Defined.

Lemma code_generation_total acd ecd sd rels :
  exists code, code_generation acd ecd sd rels = Some code.
Proof.
  unfold code_generation.
  destruct (custom_import_total (task_store sd)) as [lines ->].
  destruct (task_store_instance_total (task_store sd)) as [inst ->].
  simpl. eauto.
Qed.

(** C5, as the code has it.  Code generation raises on no task-store value.
    A value without a dot, other than the literal [Custom], is taken as it
    is: no import line is added (in the list [code] the header of the
    capabilities section comes right after the three fixed imports) and the
    request handler in [code] is given the value followed by [()].  A value
    that holds a dot is always split at its last dot, an empty segment or
    not: [code] has the import of what follows the last dot from what
    precedes it, and the request handler is given what follows it. *)
Theorem undotted_task_store_verbatim acd ecd sd rels :
  (exists code, code_generation acd ecd sd rels = Some code)
  /\ (Py.contains "."%char (task_store sd) = false ->
      task_store sd <> "Custom" ->
      custom_import_lines (task_store sd) = Some []
      /\ task_store_instance_code (task_store sd) = Some (task_store sd ++ "()")
      /\ exists code,
           code_generation acd ecd sd rels = Some code
           /\ firstn 4 code = app import_lines [capabilities_header]
           /\ In ("    task_store=" ++ (task_store sd ++ "()") ++ ",") code
           /\ filter (startswith "    task_store=") code
              = ["    task_store=" ++ (task_store sd ++ "()") ++ ","])
  /\ (Py.contains "."%char (task_store sd) = true ->
      exists before after code,
        task_store sd = before ++ "." ++ after
        /\ Py.contains "."%char after = false
        /\ code_generation acd ecd sd rels = Some code
        /\ firstn 5 code
           = app import_lines
               ["from " ++ before ++ " import " ++ after; capabilities_header]
        /\ In ("    task_store=" ++ (after ++ "()") ++ ",") code
        /\ filter (startswith "    task_store=") code
           = ["    task_store=" ++ (after ++ "()") ++ ","]).
Proof.
  split; [apply code_generation_total|]. split.
  - intros Hdot Hcustom.
    pose proof (custom_import_undotted _ Hdot) as Himp.
    assert (Hinst : task_store_instance_code (task_store sd)
                    = Some (task_store sd ++ "()")).
    { unfold task_store_instance_code.
      destruct (String.eqb_spec (task_store sd) "InMemoryTaskStore") as [-> | _]; auto.
      apply String.eqb_neq in Hcustom. rewrite Hcustom. simpl.
      now rewrite (split_plain _ _ Hdot). }
    split; [exact Himp|]. split; [exact Hinst|].
    eexists. split; [unfold code_generation; rewrite Himp, Hinst; reflexivity|].
    split; [reflexivity|]. split; [apply code_lines_task_store|].
    now apply task_store_entries.
  - intro Hdot.
    destruct (dotted_generation acd ecd sd rels Hdot)
      as (a & b & Hs & Hb & Himp & Hinst & Hcode).
    exists a, b. eexists. split; [exact Hs|]. split; [exact Hb|].
    split; [exact Hcode|]. split; [reflexivity|].
    split; [apply code_lines_task_store|]. now apply task_store_entries.
Qed.

Lemma undotted_task_store_verbatim_witness :
  custom_import_lines "MyStore" = Some []
  /\ task_store_instance_code "MyStore" = Some "MyStore()"
  /\ exists code,
       code_generation (echo_card [echo_skill]) no_extended_card (echo_server "MyStore") []
       = Some code
       /\ firstn 4 code = app import_lines [capabilities_header]
       /\ In "    task_store=MyStore()," code
       /\ filter (startswith "    task_store=") code = ["    task_store=MyStore(),"].
Proof.
  apply (proj1 (proj2 (undotted_task_store_verbatim (echo_card [echo_skill])
                         no_extended_card (echo_server "MyStore") []))).
  - reflexivity.
  - discriminate.
Defined.

(** C5, as the specification states it, fails on a path with an empty
    segment: [pkg.] ends in an empty segment, yet an import line is added
    for it and the request handler is given [()], not the value itself. *)
Lemma empty_segment_is_split :
  Py.split "."%char "pkg." = ["pkg"; EmptyString]
  /\ custom_import_lines "pkg." = Some ["from pkg import "]
  /\ custom_import_lines "pkg." <> Some []
  /\ task_store_instance_code "pkg." = Some "()"
  /\ task_store_instance_code "pkg." <> Some "pkg.()"
  /\ task_store_instance_code "pkg." <> Some "pkg."
  /\ (exists code,
         code_generation (echo_card [echo_skill]) no_extended_card (echo_server "pkg.") []
         = Some code
         /\ nth_error code 3 = Some "from pkg import "
         /\ In "    task_store=()," code).
Proof.
  repeat split; try reflexivity; try discriminate.
  eexists. split; [reflexivity|]. split; [reflexivity|].
  apply (code_lines_task_store _ "()").
Qed.

(** C9.  When the custom option is selected and the text entered is the
    literal [Custom] (white space around it aside), the value read is
    [Custom]; the check of the custom path passes; no import line is added
    (in the list [code] the header of the capabilities section comes right
    after the three fixed imports); and the request handler in [code] is
    given the placeholder
    [None # Default or TODO: Specify Custom Task Store instance] instead of
    an instance of the entered value. *)
Theorem custom_literal_placeholder (w : ServerConfigWidget.t) acd ecd rels :
  ServerConfigWidget.task_store_combo w = ServerConfigWidget.Custom ->
  Py.strip (ServerConfigWidget.custom_task_store_edit w) = "Custom" ->
  let sd := ServerConfigWidget.get_data w in
  let combo_text := ServerConfigWidget.currentText (ServerConfigWidget.task_store_combo w) in
  task_store sd = "Custom"
  /\ validation_checks acd ecd sd combo_text <> Some CustomTaskStoreRequired
  /\ custom_import_lines (task_store sd) = Some []
  /\ task_store_instance_code (task_store sd)
     = Some "None # Default or TODO: Specify Custom Task Store instance"
  /\ exists code,
       code_generation acd ecd sd rels = Some code
       /\ firstn 4 code = app import_lines [capabilities_header]
       /\ In "    task_store=None # Default or TODO: Specify Custom Task Store instance,"
            code
       /\ filter (startswith "    task_store=") code
          = ["    task_store=None # Default or TODO: Specify Custom Task Store instance,"]
       /\ ~ In "    task_store=Custom()," code.
Proof.
  intros Hcombo Hedit sd combo_text.
  assert (Hts : task_store sd = "Custom").
  { unfold sd, ServerConfigWidget.get_data. rewrite Hcombo. simpl. exact Hedit. }
  split; [exact Hts|]. split; [|split; [|split]].
  - unfold validation_checks. rewrite Hts.
    destruct (negb (Py.truthy (card_name acd))); [discriminate|].
    destruct (negb (Py.truthy (card_url acd))); [discriminate|].
    destruct (validate_skills AgentCard 0 (card_skills acd)) as [e|] eqn:Hb.
    { destruct (validate_skills_sound _ _ _ _ Hb) as (j & skill & _ & _ & _ & ->).
      unfold skill_failure. destruct (Py.truthy (skill_id skill)); discriminate. }
    rewrite ext_skills_guard.
    destruct (validate_skills ExtendedAgentCard 0 (ext_skills ecd)) as [e|] eqn:He.
    { destruct (validate_skills_sound _ _ _ _ He) as (j & skill & _ & _ & _ & ->).
      unfold skill_failure. destruct (Py.truthy (skill_id skill)); discriminate. }
    destruct (negb (Py.truthy (agent_executor_class_name sd))); [discriminate|].
    simpl. rewrite andb_false_r. discriminate.
  - now rewrite Hts.
  - now rewrite Hts.
  - eexists. split; [unfold code_generation; rewrite Hts; reflexivity|].
    split; [reflexivity|].
    split; [apply (code_lines_task_store
                     [] "None # Default or TODO: Specify Custom Task Store instance")|].
    split; [now apply (task_store_entries
                         [] "None # Default or TODO: Specify Custom Task Store instance")|].
    intro Hin. apply task_store_line_unique in Hin; [discriminate Hin| |]; reflexivity.
Qed.

Lemma custom_literal_placeholder_witness :
  let w := {| ServerConfigWidget.agent_executor_edit := "EchoExecutor";
              ServerConfigWidget.task_store_combo := ServerConfigWidget.Custom;
              ServerConfigWidget.custom_task_store_edit := "Custom" |} in
  let sd := ServerConfigWidget.get_data w in
  task_store sd = "Custom"
  /\ validation_checks (echo_card [echo_skill]) no_extended_card sd "Custom"
     <> Some CustomTaskStoreRequired
  /\ custom_import_lines (task_store sd) = Some []
  /\ task_store_instance_code (task_store sd)
     = Some "None # Default or TODO: Specify Custom Task Store instance"
  /\ exists code,
       code_generation (echo_card [echo_skill]) no_extended_card sd [] = Some code
       /\ firstn 4 code = app import_lines [capabilities_header]
       /\ In "    task_store=None # Default or TODO: Specify Custom Task Store instance,"
            code
       /\ filter (startswith "    task_store=") code
          = ["    task_store=None # Default or TODO: Specify Custom Task Store instance,"]
       /\ ~ In "    task_store=Custom()," code.
Proof.
  apply (custom_literal_placeholder
           {| ServerConfigWidget.agent_executor_edit := "EchoExecutor";
              ServerConfigWidget.task_store_combo := ServerConfigWidget.Custom;
              ServerConfigWidget.custom_task_store_edit := "Custom" |}
           (echo_card [echo_skill]) no_extended_card []).
  - reflexivity.
  - reflexivity.
Defined.

(** * The executor class name *)

Lemma validation_passed_executor acd ecd sd combo_text :
  validation_checks acd ecd sd combo_text = None ->
  Py.truthy (agent_executor_class_name sd) = true.
Proof.
  unfold validation_checks. intro H.
  destruct (negb (Py.truthy (card_name acd))); [discriminate|].
  destruct (negb (Py.truthy (card_url acd))); [discriminate|].
  destruct (validate_skills AgentCard 0 (card_skills acd)); [discriminate|].
  destruct (if list_truthy (ext_skills ecd)
            then validate_skills ExtendedAgentCard 0 (ext_skills ecd)
            else None); [discriminate|].
  destruct (Py.truthy (agent_executor_class_name sd)); [reflexivity|discriminate].
Qed.

(** C10.  Once the validation checks have passed, the executor class name
    is not empty, so the conditional of line 645 takes the configured name
    and never the default [MyAgentExecutor]; the request handler of the
    generated code instantiates the configured name as it is. *)
Theorem executor_fallback_unreachable acd ecd sd combo_text :
  validation_checks acd ecd sd combo_text = None ->
  Py.truthy (agent_executor_class_name sd) = true
  /\ resolved_agent_executor_class_name sd = agent_executor_class_name sd
  /\ (forall inst,
         In ("    agent_executor=" ++ agent_executor_class_name sd
             ++ "(), # Assuming it's instantiated here")
           (request_handler_lines sd inst))
  /\ (forall rels,
         exists custom_import inst,
           code_generation acd ecd sd rels
           = Some (code_lines custom_import inst acd ecd sd rels)
           /\ In ("    agent_executor=" ++ agent_executor_class_name sd
                  ++ "(), # Assuming it's instantiated here")
                (code_lines custom_import inst acd ecd sd rels)).
Proof.
  intro H. pose proof (validation_passed_executor _ _ _ _ H) as Hexec.
  assert (Hres : resolved_agent_executor_class_name sd = agent_executor_class_name sd).
  { unfold resolved_agent_executor_class_name. now rewrite Hexec. }
  assert (Hline : forall inst,
             In ("    agent_executor=" ++ agent_executor_class_name sd
                 ++ "(), # Assuming it's instantiated here")
               (request_handler_lines sd inst)).
  { intro inst. unfold request_handler_lines. rewrite Hres. find_line. }
  repeat split; auto.
  intro rels. unfold code_generation.
  destruct (custom_import_total (task_store sd)) as [lines ->].
  destruct (task_store_instance_total (task_store sd)) as [inst ->].
  exists lines, inst. split; [reflexivity|].
  unfold code_lines. rewrite !in_app_iff. do 6 right. left. apply Hline.
Qed.

Lemma executor_fallback_unreachable_witness :
  Py.truthy (agent_executor_class_name (echo_server "InMemoryTaskStore")) = true
  /\ resolved_agent_executor_class_name (echo_server "InMemoryTaskStore") = "EchoExecutor"
  /\ (forall inst,
         In "    agent_executor=EchoExecutor(), # Assuming it's instantiated here"
           (request_handler_lines (echo_server "InMemoryTaskStore") inst))
  /\ (forall rels,
         exists custom_import inst,
           code_generation (echo_card [echo_skill]) no_extended_card
             (echo_server "InMemoryTaskStore") rels
           = Some (code_lines custom_import inst (echo_card [echo_skill])
                     no_extended_card (echo_server "InMemoryTaskStore") rels)
           /\ In "    agent_executor=EchoExecutor(), # Assuming it's instantiated here"
                (code_lines custom_import inst (echo_card [echo_skill])
                   no_extended_card (echo_server "InMemoryTaskStore") rels)).
Proof.
  apply (executor_fallback_unreachable (echo_card [echo_skill]) no_extended_card
           (echo_server "InMemoryTaskStore") "InMemoryTaskStore").
  reflexivity.
Defined.

(** * The extended card *)

Lemma update_str_parts_overrides ecd :
  update_str_parts ecd = map keyword_argument (overrides ecd).
Proof.
  unfold update_str_parts, overrides, extended_card_update_dict.
  rewrite map_app, !format_single_string_literal. f_equal.
  - cbn [filter snd fst].
    destruct (Py.truthy (ext_name ecd)), (Py.truthy (ext_description ecd)),
      (Py.truthy (ext_version ecd)); reflexivity.
  - destruct (list_truthy (ext_skills ecd)); reflexivity.
Qed.

Lemma override_keys ecd k :
  In k (map fst (overrides ecd))
  <-> (k = "name" /\ ext_name ecd <> EmptyString)
      \/ (k = "description" /\ ext_description ecd <> EmptyString)
      \/ (k = "version" /\ ext_version ecd <> EmptyString)
      \/ (k = "skills" /\ ext_skills ecd <> []).
Proof.
  unfold overrides.
  destruct (ext_name ecd), (ext_description ecd), (ext_version ecd), (ext_skills ecd);
    simpl; split; intro H;
    repeat match goal with
      | H : _ \/ _ |- _ => destruct H
      | H : _ /\ _ |- _ => destruct H
      | H : False |- _ => destruct H
      end;
    subst; try congruence; try (auto 10; fail);
    repeat first [ split; [reflexivity | discriminate]
                 | left; split; [reflexivity | discriminate]
                 | right ].
Qed.

Lemma extended_section_in_code ci inst acd ecd sd rels :
  exists before after,
    code_lines ci inst acd ecd sd rels
    = app before (app (extended_card_lines ecd) after).
Proof.
  exists (app import_lines (app ci (app (capabilities_lines acd)
            (app (agent_skills_lines acd) (agent_card_lines acd))))),
    (app (request_handler_lines sd inst) (app application_lines (relationships_lines rels))).
  unfold code_lines. now rewrite <- !app_assoc.
Qed.

(** The entries of [code] that bind [extended_public_agent_card], that hold
    the sentinel comment, and that open the second skills list. *)
Lemma extended_entries ci inst acd ecd sd rels :
  filter (startswith "extended_public_agent_card = ") ci = [] ->
  filter (startswith "# No extended agent card") ci = [] ->
  filter (startswith "extended_agent_skills = ") ci = [] ->
  filter (startswith "extended_public_agent_card = ") (code_lines ci inst acd ecd sd rels)
  = match overrides ecd with
    | [] => ["extended_public_agent_card = None"]
    | _ :: _ =>
        [ "extended_public_agent_card = ExtendedAgentCard.from_agent_card(public_agent_card, "
          ++ Py.join ", " (map keyword_argument (overrides ecd)) ++ ")" ]
    end
  /\ filter (startswith "# No extended agent card") (code_lines ci inst acd ecd sd rels)
     = match overrides ecd with
       | [] => ["# No extended agent card attributes or skills defined to override/add."]
       | _ :: _ => []
       end
  /\ filter (startswith "extended_agent_skills = ") (code_lines ci inst acd ecd sd rels)
     = match ext_skills ecd with
       | [] => []
       | _ :: _ => ["extended_agent_skills = ["]
       end.
Proof.
  intros H1 H2 H3. unfold_code_lines. rewrite update_str_parts_overrides.
  rewrite !filter_app, H1, H2, H3.
  destruct (card_skills acd), (ext_skills ecd), rels, (overrides ecd);
    cbn [list_truthy map]; simpl;
    rewrite ?filter_app, ?filter_flat_map_nil, ?filter_map_nil by reflexivity;
    repeat split; reflexivity.
Qed.

(** C6.  For every extended card the keyword arguments of the generated
    call are the overrides of the specification: the non-empty fields among
    name, description and version, then [skills] exactly when the card has
    skills of its own.  The section is the header, then the second skills
    list when there are such skills, then the call
    [ExtendedAgentCard.from_agent_card(public_agent_card, ...)] with those
    arguments when there is one at least, and otherwise the sentinel comment
    and the binding to [None]; and the list [code] of every generation holds
    that section in one piece, its only entry that binds
    [extended_public_agent_card] being that call, or the binding to [None]
    when there is no override, the sentinel comment being there in that
    case alone, and the opening of the second skills list exactly when the
    card has skills of its own.  For the card that overrides the version
    alone, with [2.0], the call in [code] has the single argument
    [version]. *)
Theorem extended_card_overrides :
  (forall ecd,
      update_str_parts ecd = map keyword_argument (overrides ecd)
      /\ (forall k,
             In k (map fst (overrides ecd))
             <-> (k = "name" /\ ext_name ecd <> EmptyString)
                 \/ (k = "description" /\ ext_description ecd <> EmptyString)
                 \/ (k = "version" /\ ext_version ecd <> EmptyString)
                 \/ (k = "skills" /\ ext_skills ecd <> []))
      /\ extended_card_lines ecd
         = (Py.nl ++ "# --- Extended Agent Card Definition (if any overrides/additions) ---")
           :: app (match ext_skills ecd with
                   | [] => []
                   | _ :: _ =>
                       app ("extended_agent_skills = ["
                            :: flat_map skill_lines (ext_skills ecd)) ["]"]
                   end)
                  (match overrides ecd with
                   | [] =>
                       [ "# No extended agent card attributes or skills defined to override/add.";
                         "extended_public_agent_card = None" ]
                   | _ :: _ =>
                       [ "extended_public_agent_card = ExtendedAgentCard.from_agent_card(public_agent_card, "
                         ++ Py.join ", " (map keyword_argument (overrides ecd)) ++ ")" ]
                   end)
      /\ (forall acd sd rels,
             exists code,
               code_generation acd ecd sd rels = Some code
               /\ (exists before after,
                      code = app before (app (extended_card_lines ecd) after))
               /\ filter (startswith "extended_public_agent_card = ") code
                  = match overrides ecd with
                    | [] => ["extended_public_agent_card = None"]
                    | _ :: _ =>
                        [ "extended_public_agent_card = ExtendedAgentCard.from_agent_card(public_agent_card, "
                          ++ Py.join ", " (map keyword_argument (overrides ecd)) ++ ")" ]
                    end
               /\ filter (startswith "# No extended agent card") code
                  = match overrides ecd with
                    | [] =>
                        ["# No extended agent card attributes or skills defined to override/add."]
                    | _ :: _ => []
                    end
               /\ filter (startswith "extended_agent_skills = ") code
                  = match ext_skills ecd with
                    | [] => []
                    | _ :: _ => ["extended_agent_skills = ["]
                    end))
  /\ (overrides version_only_extended_card
      = [("version", double_quote ++ "2.0" ++ double_quote)]
      /\ extended_card_lines version_only_extended_card
         = [ Py.nl ++ "# --- Extended Agent Card Definition (if any overrides/additions) ---";
             "extended_public_agent_card = ExtendedAgentCard.from_agent_card(public_agent_card, version="
             ++ double_quote ++ "2.0" ++ double_quote ++ ")" ])
  /\ (forall acd sd rels,
         exists code,
           code_generation acd version_only_extended_card sd rels = Some code
           /\ filter (startswith "extended_public_agent_card = ") code
              = [ "extended_public_agent_card = ExtendedAgentCard.from_agent_card(public_agent_card, version="
                  ++ double_quote ++ "2.0" ++ double_quote ++ ")" ]
           /\ filter (startswith "# No extended agent card") code = []
           /\ filter (startswith "extended_agent_skills = ") code = []).
Proof.
  assert (Hgen : forall acd ecd sd rels,
             exists ci inst,
               code_generation acd ecd sd rels = Some (code_lines ci inst acd ecd sd rels)
               /\ filter (startswith "extended_public_agent_card = ") ci = []
               /\ filter (startswith "# No extended agent card") ci = []
               /\ filter (startswith "extended_agent_skills = ") ci = []).
  { intros acd ecd sd rels. unfold code_generation.
    destruct (custom_import_total (task_store sd)) as [lines Hl].
    destruct (task_store_instance_total (task_store sd)) as [inst Hi].
    rewrite Hl, Hi. exists lines, inst. split; [reflexivity|].
    destruct (custom_import_shape _ _ Hl) as [-> | (a & b & ->)];
      repeat split; reflexivity. }
  split; [|split; [split; reflexivity|]].
  - intro ecd. split; [apply update_str_parts_overrides|]. split; [apply override_keys|].
    split.
    + unfold extended_card_lines, extended_skills_lines, extended_card_binding_lines.
      rewrite update_str_parts_overrides.
      f_equal. f_equal.
      * destruct (ext_skills ecd); reflexivity.
      * destruct (overrides ecd); reflexivity.
    + intros acd sd rels.
      destruct (Hgen acd ecd sd rels) as (ci & inst & Hcode & H1 & H2 & H3).
      eexists. split; [exact Hcode|].
      split; [apply extended_section_in_code|].
      now apply extended_entries.
  - intros acd sd rels.
    destruct (Hgen acd version_only_extended_card sd rels)
      as (ci & inst & Hcode & H1 & H2 & H3).
    eexists. split; [exact Hcode|].
    apply (extended_entries ci inst acd version_only_extended_card sd rels H1 H2 H3).
Qed.

(** * The generate operation *)

(** C8.  When a validation check fails, the handler shows the warning and
    returns the window as it was: the generated-code view keeps its text,
    the current tab stays, and no code is built.  When every check passes
    the code is built in full (generation raises on no input), joined with
    newlines, put in the view, and the view becomes the current tab. *)
Theorem validation_failure_aborts (self : MainWindow.t) :
  (forall e,
      MainWindow.validate self = Some e ->
      MainWindow.handle_generate_code self
      = (self, MainWindow.Warning "Validation Error" (warning_text e))
      /\ MainWindow.generated_code_text_edit (fst (MainWindow.handle_generate_code self))
         = MainWindow.generated_code_text_edit self
      /\ MainWindow.current_tab (fst (MainWindow.handle_generate_code self))
         = MainWindow.current_tab self)
  /\ (MainWindow.validate self = None ->
      exists code,
        MainWindow.generate self = Some code
        /\ MainWindow.handle_generate_code self
           = (MainWindow.setCurrentWidget
                (MainWindow.setPlainText self (Py.join Py.nl code))
                MainWindow.GeneratedCodeTab,
              MainWindow.Displayed))
  /\ snd (MainWindow.handle_generate_code self) <> MainWindow.Raised.
Proof.
  unfold MainWindow.handle_generate_code.
  destruct (code_generation_total
              (AgentCardWidget.get_data (MainWindow.agent_card_widget self))
              (ExtendedAgentCardWidget.get_data (MainWindow.extended_agent_card_widget self))
              (ServerConfigWidget.get_data (MainWindow.server_config_widget self))
              (AgentRelationshipsWidget.get_data (MainWindow.agent_relationships_widget self)))
    as [code Hcode].
  fold (MainWindow.generate self) in Hcode.
  split; [|split].
  - intros e He. rewrite He. auto.
  - intro Hv. rewrite Hv, Hcode. eauto.
  - destruct (MainWindow.validate self); [discriminate|].
    rewrite Hcode. discriminate.
Qed.

Lemma validation_failure_aborts_witness :
  MainWindow.handle_generate_code (echo_window "   " "# earlier output")
  = (echo_window "   " "# earlier output",
     MainWindow.Warning "Validation Error" "Agent Card: Name is required.")
  /\ MainWindow.generated_code_text_edit
       (fst (MainWindow.handle_generate_code (echo_window "   " "# earlier output")))
     = "# earlier output"
  /\ MainWindow.current_tab
       (fst (MainWindow.handle_generate_code (echo_window "   " "# earlier output")))
     = MainWindow.AgentCardTab.
Proof.
  apply (proj1 (validation_failure_aborts (echo_window "   " "# earlier output"))
           NameRequired).
  reflexivity.
Defined.

(** The echo agent of the specification, run through the whole handler. *)
Example echo_window_generated :
  exists code,
    MainWindow.handle_generate_code (echo_window "Echo" EmptyString)
    = (MainWindow.setCurrentWidget
         (MainWindow.setPlainText (echo_window "Echo" EmptyString) (Py.join Py.nl code))
         MainWindow.GeneratedCodeTab,
       MainWindow.Displayed)
    /\ In ("        id=" ++ double_quote ++ "echo" ++ double_quote ++ ",") code
    /\ In "        tags=['echo', 'demo']," code
    /\ In "    streaming=True," code
    /\ In "    push_notifications=False," code
    /\ In "    agent_executor=EchoExecutor(), # Assuming it's instantiated here" code
    /\ In "    task_store=InMemoryTaskStore()," code
    /\ In "extended_public_agent_card = None" code
    /\ In "# No agent relationships defined." code
    /\ List.length code = 46.
Proof.
  eexists. split; [reflexivity|].
  repeat split; try reflexivity; repeat first [ left; reflexivity | right ].
Qed.

(** * Further properties: what the forms must hold *)

Lemma truthy_strip_has_text s : Py.truthy (Py.strip s) = has_text s.
Proof.
  unfold has_text. destruct (all_chars Py.isspace s) eqn:H; simpl.
  - apply truthy_false_iff. now apply strip_empty_iff.
  - apply truthy_true_iff. intro E. apply strip_empty_iff in E. congruence.
Qed.

Lemma skill_valid_get_data w :
  skill_valid (SkillEntryWidget.get_data w) = skill_entry_filled w.
Proof.
  unfold skill_valid, skill_entry_filled. simpl. now rewrite !truthy_strip_has_text.
Qed.

Lemma forallb_skill_valid_layout layout :
  forallb skill_valid (map SkillEntryWidget.get_data layout)
  = forallb skill_entry_filled layout.
Proof.
  induction layout as [|w layout IH]; simpl; auto.
  now rewrite skill_valid_get_data, IH.
Qed.

Lemma validate_skills_none_iff card skills : forall k,
  validate_skills card k skills = None <-> forallb skill_valid skills = true.
Proof.
  intro k. split; [|apply validate_skills_all_valid].
  revert k. induction skills as [|s0 skills IH]; intros k H; simpl in *; auto.
  unfold skill_valid at 1.
  destruct (Py.truthy (skill_id s0)); simpl in *; [|discriminate].
  destruct (Py.truthy (skill_name s0)); simpl in *; [|discriminate]. eauto.
Qed.

(** The checks pass exactly when every required field is there. *)
Lemma validation_checks_none_iff acd ecd sd combo_text :
  validation_checks acd ecd sd combo_text = None
  <-> Py.truthy (card_name acd) = true
      /\ Py.truthy (card_url acd) = true
      /\ forallb skill_valid (card_skills acd) = true
      /\ forallb skill_valid (ext_skills ecd) = true
      /\ Py.truthy (agent_executor_class_name sd) = true
      /\ ((combo_text =? "Custom") = true -> Py.truthy (task_store sd) = true).
Proof.
  unfold validation_checks. rewrite ext_skills_guard.
  rewrite <- (validate_skills_none_iff AgentCard (card_skills acd) 0).
  rewrite <- (validate_skills_none_iff ExtendedAgentCard (ext_skills ecd) 0).
  destruct (Py.truthy (card_name acd)); simpl;
    [|split; [discriminate|intros (H & _); discriminate]].
  destruct (Py.truthy (card_url acd)); simpl;
    [|split; [discriminate|intros (_ & H & _); discriminate]].
  destruct (validate_skills AgentCard 0 (card_skills acd));
    [split; [discriminate|intros (_ & _ & H & _); discriminate]|].
  destruct (validate_skills ExtendedAgentCard 0 (ext_skills ecd));
    [split; [discriminate|intros (_ & _ & _ & H & _); discriminate]|].
  destruct (Py.truthy (agent_executor_class_name sd)); simpl;
    [|split; [discriminate|intros (_ & _ & _ & _ & H & _); discriminate]].
  destruct (combo_text =? "Custom"), (Py.truthy (task_store sd)); simpl;
    split; try discriminate; auto 10.
  intros (_ & _ & _ & _ & _ & H). specialize (H eq_refl). discriminate.
Qed.

(** X1.  The handler accepts a window, that is none of its validation
    checks fails, exactly when the name and the url of the card hold text
    (a character that is not white space), every skill entry of the card and
    of the extended card holds text in its id and in its name, the executor
    class name holds text and, when the combo shows Custom, so does the
    custom task-store field.  No other field matters. *)
Theorem window_accepted_iff (self : MainWindow.t) :
  MainWindow.validate self = None
  <-> has_text (AgentCardWidget.name_edit (MainWindow.agent_card_widget self)) = true
      /\ has_text (AgentCardWidget.url_edit (MainWindow.agent_card_widget self)) = true
      /\ forallb skill_entry_filled
           (AgentCardWidget.skills_layout (MainWindow.agent_card_widget self)) = true
      /\ forallb skill_entry_filled
           (ExtendedAgentCardWidget.extended_skills_layout
              (MainWindow.extended_agent_card_widget self)) = true
      /\ has_text (ServerConfigWidget.agent_executor_edit
                     (MainWindow.server_config_widget self)) = true
      /\ (ServerConfigWidget.task_store_combo (MainWindow.server_config_widget self)
          = ServerConfigWidget.Custom
          -> has_text (ServerConfigWidget.custom_task_store_edit
                         (MainWindow.server_config_widget self)) = true).
Proof.
  unfold MainWindow.validate. rewrite validation_checks_none_iff.
  unfold AgentCardWidget.get_data, ExtendedAgentCardWidget.get_data,
    ServerConfigWidget.get_data. cbn [card_name card_url card_skills ext_skills
    agent_executor_class_name task_store].
  rewrite !forallb_skill_valid_layout, !truthy_strip_has_text.
  destruct (ServerConfigWidget.task_store_combo (MainWindow.server_config_widget self));
    simpl; rewrite ?truthy_strip_has_text; intuition congruence.
Qed.

(** X2.  A card name made of white space only (the empty name of a window
    just opened among them) counts as missing: the handler shows
    [Agent Card: Name is required.] and leaves the window as it was,
    whatever the other fields hold. *)
Theorem blank_name_is_missing (self : MainWindow.t) :
  has_text (AgentCardWidget.name_edit (MainWindow.agent_card_widget self)) = false ->
  MainWindow.handle_generate_code self
  = (self, MainWindow.Warning "Validation Error" "Agent Card: Name is required.").
Proof.
  intro H. unfold MainWindow.handle_generate_code, MainWindow.validate,
    validation_checks, AgentCardWidget.get_data.
  cbn [card_name]. now rewrite truthy_strip_has_text, H.
Qed.

Lemma blank_name_is_missing_witness :
  MainWindow.handle_generate_code Ui.MainWindow_init_ui
  = (Ui.MainWindow_init_ui,
     MainWindow.Warning "Validation Error" "Agent Card: Name is required.").
Proof.
  apply (blank_name_is_missing Ui.MainWindow_init_ui). reflexivity.
Defined.

(** * Further properties: adding and removing entries *)

Lemma forallb_removeWidget {A} (p : A -> bool) (l : list A) : forall i,
  forallb p l = true -> forallb p (Ui.removeWidget l i) = true.
Proof.
  unfold Ui.removeWidget.
  induction l as [|x l IH]; intros i H.
  - destruct i; reflexivity.
  - simpl in H. apply andb_true_iff in H as [Hx Hl].
    destruct i as [|i]; simpl; auto.
    rewrite Hx. simpl. apply (IH i Hl).
Qed.

Lemma map_removeWidget {A B} (f : A -> B) (l : list A) : forall i,
  map f (Ui.removeWidget l i) = Ui.removeWidget (map f l) i.
Proof.
  unfold Ui.removeWidget.
  induction l as [|x l IH]; intro i.
  - destruct i; reflexivity.
  - destruct i as [|i]; simpl; auto. f_equal. apply IH.
Qed.

(** The loop over a list of valid skills followed by a blank one stops at
    the blank one. *)
Lemma validate_skills_added card (layout : list SkillEntryWidget.t) :
  forallb skill_entry_filled layout = true ->
  validate_skills card 0
    (map SkillEntryWidget.get_data (Ui.addWidget layout Ui.SkillEntryWidget_init_ui))
  = Some (SkillIdRequired card (List.length layout)).
Proof.
  intro H. unfold Ui.addWidget. rewrite map_app.
  rewrite (validate_skills_first card _ 0 (List.length layout)
             (SkillEntryWidget.get_data Ui.SkillEntryWidget_init_ui)).
  - reflexivity.
  - rewrite nth_error_app2; rewrite length_map; [|lia].
    now rewrite Nat.sub_diag.
  - reflexivity.
  - rewrite <- (length_map SkillEntryWidget.get_data layout), firstn_app, Nat.sub_diag.
    rewrite firstn_all. simpl. rewrite app_nil_r.
    now rewrite forallb_skill_valid_layout.
Qed.

(** X3.  On a window that passes validation, [add_skill_ui] puts a blank
    entry last in the skills of the card, and until it is filled the handler
    stops there: the warning names the new skill by its place counted from
    1 and asks for its id, and nothing is generated.  The same holds for
    [add_extended_skill_ui] and the skills of the extended card. *)
Theorem added_skill_must_be_filled (self : MainWindow.t) :
  MainWindow.validate self = None ->
  MainWindow.handle_generate_code (Ui.on_agent_card Ui.add_skill_ui self)
  = (Ui.on_agent_card Ui.add_skill_ui self,
     MainWindow.Warning "Validation Error"
       (("Agent Card - Skill #"
         ++ Py.str_of_nat
              (List.length
                 (AgentCardWidget.skills_layout (MainWindow.agent_card_widget self)) + 1))
        ++ ": ID is required."))
  /\ MainWindow.handle_generate_code (Ui.on_extended_card Ui.add_extended_skill_ui self)
     = (Ui.on_extended_card Ui.add_extended_skill_ui self,
        MainWindow.Warning "Validation Error"
          (("Extended Agent Card - Skill #"
            ++ Py.str_of_nat
                 (List.length
                    (ExtendedAgentCardWidget.extended_skills_layout
                       (MainWindow.extended_agent_card_widget self)) + 1))
           ++ ": ID is required.")).
Proof.
  intro H. unfold MainWindow.validate in H.
  apply validation_checks_none_iff in H as (Hname & Hurl & Hbase & Hext & Hexec & Hcustom).
  unfold AgentCardWidget.get_data, ExtendedAgentCardWidget.get_data in *.
  cbn [card_name card_url card_skills ext_skills] in *.
  rewrite forallb_skill_valid_layout in Hbase, Hext.
  split.
  - assert (Hv : MainWindow.validate (Ui.on_agent_card Ui.add_skill_ui self)
                 = Some (SkillIdRequired AgentCard
                           (List.length (AgentCardWidget.skills_layout
                                           (MainWindow.agent_card_widget self))))).
    { unfold MainWindow.validate, validation_checks, AgentCardWidget.get_data.
      cbn [Ui.on_agent_card Ui.add_skill_ui Ui.with_skills_layout
           MainWindow.agent_card_widget AgentCardWidget.name_edit AgentCardWidget.url_edit
           AgentCardWidget.skills_layout card_name card_url card_skills].
      rewrite Hname, Hurl. cbn [negb].
      now rewrite (validate_skills_added AgentCard _ Hbase). }
    unfold MainWindow.handle_generate_code. rewrite Hv. reflexivity.
  - assert (Hv : MainWindow.validate (Ui.on_extended_card Ui.add_extended_skill_ui self)
                 = Some (SkillIdRequired ExtendedAgentCard
                           (List.length (ExtendedAgentCardWidget.extended_skills_layout
                                           (MainWindow.extended_agent_card_widget self))))).
    { unfold MainWindow.validate, validation_checks, AgentCardWidget.get_data,
        ExtendedAgentCardWidget.get_data.
      cbn [Ui.on_extended_card Ui.add_extended_skill_ui Ui.with_extended_skills_layout
           MainWindow.agent_card_widget MainWindow.extended_agent_card_widget
           ExtendedAgentCardWidget.extended_skills_layout
           card_name card_url card_skills ext_skills].
      rewrite Hname, Hurl. cbn [negb].
      rewrite (validate_skills_all_valid AgentCard _ 0)
        by now rewrite forallb_skill_valid_layout.
      rewrite ext_skills_guard.
      now rewrite (validate_skills_added ExtendedAgentCard _ Hext). }
    unfold MainWindow.handle_generate_code. rewrite Hv. reflexivity.
Qed.

Lemma added_skill_must_be_filled_witness :
  MainWindow.handle_generate_code
    (Ui.on_agent_card Ui.add_skill_ui (echo_window "Echo" EmptyString))
  = (Ui.on_agent_card Ui.add_skill_ui (echo_window "Echo" EmptyString),
     MainWindow.Warning "Validation Error" "Agent Card - Skill #2: ID is required.")
  /\ MainWindow.handle_generate_code
       (Ui.on_extended_card Ui.add_extended_skill_ui (echo_window "Echo" EmptyString))
     = (Ui.on_extended_card Ui.add_extended_skill_ui (echo_window "Echo" EmptyString),
        MainWindow.Warning "Validation Error"
          "Extended Agent Card - Skill #1: ID is required.").
Proof.
  apply (added_skill_must_be_filled (echo_window "Echo" EmptyString)). reflexivity.
Defined.

(** X4.  Removing an entry never makes a valid window invalid: when the
    window passes validation, it still does after [remove_self] of any
    skill entry of the card, of any skill entry of the extended card, or of
    any relationship entry. *)
Theorem removal_keeps_validity (self : MainWindow.t) (i : nat) :
  MainWindow.validate self = None ->
  MainWindow.validate (Ui.on_agent_card (Ui.skill_remove_self i) self) = None
  /\ MainWindow.validate (Ui.on_extended_card (Ui.extended_skill_remove_self i) self) = None
  /\ MainWindow.validate (Ui.on_relationships (Ui.relationship_remove_self i) self) = None.
Proof.
  unfold MainWindow.validate. intro H.
  apply validation_checks_none_iff in H as (Hname & Hurl & Hbase & Hext & Hexec & Hcustom).
  unfold AgentCardWidget.get_data, ExtendedAgentCardWidget.get_data in *.
  cbn [card_name card_url card_skills ext_skills] in *.
  repeat split; apply validation_checks_none_iff;
    cbn [Ui.on_agent_card Ui.on_extended_card Ui.on_relationships
         Ui.skill_remove_self Ui.extended_skill_remove_self
         Ui.with_skills_layout Ui.with_extended_skills_layout
         MainWindow.agent_card_widget MainWindow.extended_agent_card_widget
         MainWindow.server_config_widget
         AgentCardWidget.name_edit AgentCardWidget.url_edit AgentCardWidget.skills_layout
         ExtendedAgentCardWidget.extended_skills_layout
         card_name card_url card_skills ext_skills];
    repeat split; auto;
    rewrite map_removeWidget; now apply forallb_removeWidget.
Qed.

Lemma removal_keeps_validity_witness :
  MainWindow.validate
    (Ui.on_agent_card (Ui.skill_remove_self 0) (echo_window "Echo" EmptyString)) = None
  /\ MainWindow.validate
       (Ui.on_extended_card (Ui.extended_skill_remove_self 0)
          (echo_window "Echo" EmptyString)) = None
  /\ MainWindow.validate
       (Ui.on_relationships (Ui.relationship_remove_self 0)
          (echo_window "Echo" EmptyString)) = None.
Proof.
  apply (removal_keeps_validity (echo_window "Echo" EmptyString) 0). reflexivity.
Defined.

(** * Further properties: the handler *)

(** X6.  Pressing the button a second time, with nothing edited in between,
    changes nothing more: the handler run on the window it has left gives
    that same window and the same effect (the same warning, or the same
    code displayed again). *)
Theorem generate_twice (self : MainWindow.t) :
  MainWindow.handle_generate_code (fst (MainWindow.handle_generate_code self))
  = MainWindow.handle_generate_code self.
Proof.
  unfold MainWindow.handle_generate_code.
  destruct (MainWindow.validate self) eqn:Hv.
  - simpl. now rewrite Hv.
  - destruct (MainWindow.generate self) as [code|] eqn:Hg.
    + cbn [fst].
      change (MainWindow.validate
                (MainWindow.setCurrentWidget
                   (MainWindow.setPlainText self (Py.join Py.nl code))
                   MainWindow.GeneratedCodeTab))
        with (MainWindow.validate self).
      change (MainWindow.generate
                (MainWindow.setCurrentWidget
                   (MainWindow.setPlainText self (Py.join Py.nl code))
                   MainWindow.GeneratedCodeTab))
        with (MainWindow.generate self).
      rewrite Hv, Hg. reflexivity.
    + simpl. now rewrite Hv, Hg.
Qed.

(** * Further properties: order in the generated code *)

Lemma skill_lines_ids skills :
  filter (startswith "        id=") (flat_map skill_lines skills)
  = map skill_id_line skills.
Proof.
  induction skills as [|skill skills IH]; [reflexivity|].
  cbn [flat_map map]. rewrite filter_app, IH. reflexivity.
Qed.

Lemma skill_lines_no_relationship skills :
  filter (startswith "#    '") (flat_map skill_lines skills) = [].
Proof.
  induction skills as [|skill skills IH]; [reflexivity|].
  cbn [flat_map]. rewrite filter_app, IH. reflexivity.
Qed.

Lemma relationship_lines_only rels :
  filter (startswith "#    '") (map relationship_line rels)
  = map relationship_line rels.
Proof.
  induction rels as [|rel rels IH]; [reflexivity|].
  cbn [map filter].
  change (startswith "#    '" (relationship_line rel)) with true.
  cbv iota. now rewrite IH.
Qed.

Lemma relationship_lines_no_id rels :
  filter (startswith "        id=") (map relationship_line rels) = [].
Proof.
  induction rels as [|rel rels IH]; [reflexivity|].
  cbn [map filter].
  change (startswith "        id=" (relationship_line rel)) with false.
  cbv iota. exact IH.
Qed.

(** The entries of [code] that start with [        id=] are the id lines of
    the skills of the card, in their order, followed by those of the skills
    of the extended card. *)
Lemma skill_id_entries acd ecd sd rels :
  exists code,
    code_generation acd ecd sd rels = Some code
    /\ filter (startswith "        id=") code
       = map skill_id_line (card_skills acd ++ ext_skills ecd)%list.
Proof.
  unfold code_generation.
  destruct (custom_import_total (task_store sd)) as [lines Hl].
  destruct (task_store_instance_total (task_store sd)) as [inst Hi].
  rewrite Hl, Hi. cbn [bind]. eexists. split; [reflexivity|].
  unfold code_lines. rewrite !filter_app, map_app.
  assert (H1 : filter (startswith "        id=") lines = []).
  { destruct (custom_import_shape _ _ Hl) as [-> | (a & b & ->)]; reflexivity. }
  assert (H2 : filter (startswith "        id=") (agent_skills_lines acd)
               = map skill_id_line (card_skills acd)).
  { unfold agent_skills_lines. destruct (card_skills acd) as [|s0 l]; [reflexivity|].
    cbn [list_truthy]. cbn [filter String.prefix app].
    change (startswith "        id=" (Py.nl ++ "# --- Main Agent Card Skills Definition ---"))
      with false.
    cbv iota. rewrite filter_app, skill_lines_ids, app_nil_r. reflexivity. }
  assert (H3 : filter (startswith "        id=") (extended_card_lines ecd)
               = map skill_id_line (ext_skills ecd)).
  { unfold extended_card_lines. cbn [filter].
    change (startswith "        id="
              (Py.nl ++ "# --- Extended Agent Card Definition (if any overrides/additions) ---"))
      with false.
    cbv iota. rewrite filter_app.
    assert (Hb : filter (startswith "        id=") (extended_card_binding_lines ecd) = []).
    { unfold extended_card_binding_lines.
      destruct (list_truthy (update_str_parts ecd)); reflexivity. }
    rewrite Hb, app_nil_r. unfold extended_skills_lines.
    destruct (ext_skills ecd) as [|s0 l]; [reflexivity|].
    cbn [list_truthy]. cbn [filter app].
    change (startswith "        id=" "extended_agent_skills = [") with false.
    cbv iota. rewrite filter_app, skill_lines_ids, app_nil_r. reflexivity. }
  assert (H4 : filter (startswith "        id=") (relationships_lines rels) = []).
  { unfold relationships_lines. destruct rels as [|r0 l]; [reflexivity|].
    cbn [list_truthy filter app].
    change (startswith "        id="
              (Py.nl ++ "# --- Defined Agent Relationships (Informational) ---"))
      with false.
    change (startswith "        id=" "# {") with false.
    cbv iota. rewrite filter_app.
    change (map (fun rel => "#    '" ++ rel_name rel ++ "': '" ++ rel_url rel ++ "',") (r0 :: l))
      with (map relationship_line (r0 :: l)).
    rewrite relationship_lines_no_id. reflexivity. }
  rewrite H1, H2, H3, H4, app_nil_r.
  reflexivity.
Qed.

(** The entries of [code] that start with [#    '] are the comment lines of
    the relationships, in their order. *)
Lemma relationship_entries acd ecd sd rels :
  exists code,
    code_generation acd ecd sd rels = Some code
    /\ filter (startswith "#    '") code = map relationship_line rels.
Proof.
  unfold code_generation.
  destruct (custom_import_total (task_store sd)) as [lines Hl].
  destruct (task_store_instance_total (task_store sd)) as [inst Hi].
  rewrite Hl, Hi. cbn [bind]. eexists. split; [reflexivity|].
  unfold code_lines. rewrite !filter_app.
  assert (H1 : filter (startswith "#    '") lines = []).
  { destruct (custom_import_shape _ _ Hl) as [-> | (a & b & ->)]; reflexivity. }
  assert (H2 : filter (startswith "#    '") (agent_skills_lines acd) = []).
  { unfold agent_skills_lines. destruct (card_skills acd) as [|s0 l]; [reflexivity|].
    cbn [list_truthy]. cbn [filter app].
    change (startswith "#    '" (Py.nl ++ "# --- Main Agent Card Skills Definition ---"))
      with false.
    change (startswith "#    '" "agent_skills = [") with false.
    cbv iota. rewrite filter_app, skill_lines_no_relationship. reflexivity. }
  assert (H3 : filter (startswith "#    '") (extended_card_lines ecd) = []).
  { unfold extended_card_lines. cbn [filter].
    change (startswith "#    '"
              (Py.nl ++ "# --- Extended Agent Card Definition (if any overrides/additions) ---"))
      with false.
    cbv iota. rewrite filter_app.
    assert (Hb : filter (startswith "#    '") (extended_card_binding_lines ecd) = []).
    { unfold extended_card_binding_lines.
      destruct (list_truthy (update_str_parts ecd)); reflexivity. }
    rewrite Hb, app_nil_r. unfold extended_skills_lines.
    destruct (ext_skills ecd) as [|s0 l]; [reflexivity|].
    cbn [list_truthy]. cbn [filter app].
    change (startswith "#    '" "extended_agent_skills = [") with false.
    cbv iota. rewrite filter_app, skill_lines_no_relationship. reflexivity. }
  assert (H4 : filter (startswith "#    '") (relationships_lines rels)
               = map relationship_line rels).
  { unfold relationships_lines. destruct rels as [|r0 l]; [reflexivity|].
    cbn [list_truthy filter app].
    change (startswith "#    '"
              (Py.nl ++ "# --- Defined Agent Relationships (Informational) ---"))
      with false.
    change (startswith "#    '" "# {") with false.
    cbv iota. rewrite filter_app.
    change (map (fun rel => "#    '" ++ rel_name rel ++ "': '" ++ rel_url rel ++ "',") (r0 :: l))
      with (map relationship_line (r0 :: l)).
    rewrite relationship_lines_only, app_nil_r. reflexivity. }
  rewrite H1, H2, H3, H4.
  reflexivity.
Qed.

(** * Further properties: the two formatting helpers *)

Lemma length_append (a b : string) :
  String.length (a ++ b) = String.length a + String.length b.
Proof. induction a as [|x a IH]; simpl; congruence. Qed.

Lemma append_inj_r (s : string) : forall a b, a ++ s = b ++ s -> a = b.
Proof.
  induction a as [|x a IH]; intros [|y b] H; auto.
  - apply (f_equal String.length) in H. simpl in H. rewrite length_append in H. lia.
  - apply (f_equal String.length) in H. simpl in H. rewrite length_append in H. lia.
  - simpl in H. injection H as -> H. f_equal. now apply IH.
Qed.

Lemma contains_append c (a b : string) :
  Py.contains c (a ++ b) = Py.contains c a || Py.contains c b.
Proof. induction a as [|x a IH]; simpl; auto. now rewrite IH, orb_assoc. Qed.

Lemma contains_format_single text :
  Py.contains Py.LF (format_single_string_for_code text) = Py.contains Py.LF text.
Proof.
  unfold format_single_string_for_code.
  destruct (Py.contains Py.LF text) eqn:H; cbn [Py.contains];
    rewrite contains_append, H; reflexivity.
Qed.

(** X9.  [format_single_string_for_code] never renders two different texts
    as the same literal: equal literals come from equal texts.  The literal
    has a line feed exactly when the text has one. *)
Theorem format_single_injective (a b : string) :
  (format_single_string_for_code a = format_single_string_for_code b -> a = b)
  /\ Py.contains Py.LF (format_single_string_for_code a) = Py.contains Py.LF a.
Proof.
  split; [|apply contains_format_single].
  intro H.
  pose proof (f_equal (Py.contains Py.LF) H) as Hlf.
  rewrite !contains_format_single in Hlf.
  unfold format_single_string_for_code in H. rewrite <- Hlf in H.
  destruct (Py.contains Py.LF a).
  - injection H as H. now apply append_inj_r in H.
  - injection H as H. now apply append_inj_r in H.
Qed.

Lemma format_string_list_repr raw :
  format_string_list_for_code raw = Py.repr_list (items_of raw).
Proof.
  unfold format_string_list_for_code.
  destruct (Py.truthy (Py.strip raw)) eqn:Hs; simpl.
  - now rewrite map_id.
  - apply truthy_false_iff in Hs.
    rewrite items_of_parseList, (parseList_of_blank_text raw Hs). reflexivity.
Qed.

Lemma repr_char_no_line_feed q c :
  q = Py.SQUOTE \/ q = Py.DQUOTE ->
  Py.contains Py.LF (Py.repr_char q c) = false.
Proof.
  intros [-> | ->];
    destruct c as [[] [] [] [] [] [] [] []]; vm_compute; reflexivity.
Qed.

Lemma repr_body_no_line_feed q s :
  q = Py.SQUOTE \/ q = Py.DQUOTE ->
  Py.contains Py.LF (Py.repr_body q s) = false.
Proof.
  intro Hq. induction s as [|c r IH]; simpl; auto.
  now rewrite contains_append, (repr_char_no_line_feed q c Hq), IH.
Qed.

Lemma repr_str_no_line_feed s : Py.contains Py.LF (Py.repr_str s) = false.
Proof.
  unfold Py.repr_str.
  destruct (Py.contains Py.SQUOTE s && negb (Py.contains Py.DQUOTE s));
    cbn [Py.contains]; rewrite contains_append, repr_body_no_line_feed; auto.
Qed.

Lemma join_no_line_feed (l : list string) :
  Forall (fun x => Py.contains Py.LF x = false) l ->
  Py.contains Py.LF (Py.join ", " l) = false.
Proof.
  induction 1 as [|x l Hx Hl IH]; [reflexivity|].
  destruct l as [|y l]; [exact Hx|].
  change (Py.join ", " (x :: y :: l)) with (x ++ ", " ++ Py.join ", " (y :: l)).
  now rewrite !contains_append, Hx, IH.
Qed.

Lemma repr_char_plain c : plain_char c = true -> Py.repr_char Py.SQUOTE c = Py.chr c.
Proof.
  destruct c as [[] [] [] [] [] [] [] []]; vm_compute; intro H;
    first [reflexivity | discriminate H].
Qed.

Lemma plain_char_not_squote c : plain_char c = true -> Ascii.eqb c Py.SQUOTE = false.
Proof.
  unfold plain_char. intro H. apply andb_true_iff in H as [H _].
  apply andb_true_iff in H as [_ H]. now apply negb_true_iff in H.
Qed.

Lemma repr_str_plain t :
  all_chars plain_char t = true -> Py.repr_str t = single_quoted t.
Proof.
  intro H. unfold Py.repr_str, single_quoted.
  assert (Hq : Py.contains Py.SQUOTE t = false).
  { induction t as [|c r IH]; simpl in *; auto.
    apply andb_true_iff in H as [Hc Hr]. now rewrite (plain_char_not_squote c Hc), IH. }
  rewrite Hq. cbn [andb]. f_equal. f_equal.
  induction t as [|c r IH]; simpl in *; auto.
  apply andb_true_iff in H as [Hc Hr]. apply orb_false_iff in Hq as [_ Hq].
  now rewrite (repr_char_plain c Hc), IH.
Qed.

Lemma all_chars_both (P Q R : ascii -> bool) s :
  (forall c, P c = true -> Q c = true -> R c = true) ->
  all_chars P s = true -> all_chars Q s = true -> all_chars R s = true.
Proof.
  intro HR. induction s as [|c r IH]; simpl; auto.
  intros HP HQ. apply andb_true_iff in HP as [Hc Hr]. apply andb_true_iff in HQ as [Hc' Hr'].
  rewrite (HR c Hc Hc'). simpl. auto.
Qed.

(** X11.  On an input made of plain characters (printable ASCII other than
    the single quote and the backslash) and of separators,
    [format_string_list_for_code] returns the tokens as they are, each
    between single quotes, joined by a comma and a space, between brackets:
    the shape its docstring shows. *)
Theorem list_literal_of_plain_text (raw : string) :
  all_chars (fun c => plain_char c || is_list_separator c) raw = true ->
  format_string_list_for_code raw
  = "[" ++ Py.join ", " (map single_quoted (items_of raw)) ++ "]".
Proof.
  intro H. rewrite format_string_list_repr. unfold Py.repr_list. f_equal. f_equal. f_equal.
  apply map_ext_in. intros t Ht. apply repr_str_plain.
  pose proof (parseList_clean raw) as Hclean. rewrite <- items_of_parseList in Hclean.
  rewrite Forall_forall in Hclean. destruct (Hclean t Ht) as (_ & _ & _ & Hsep).
  assert (Hin : all_chars (fun c => plain_char c || is_list_separator c) t = true).
  { rewrite items_of_parseList in Ht. unfold parseList in Ht.
    apply filter_In in Ht as [Ht _]. apply in_map_iff in Ht as (piece & <- & Hp).
    apply all_chars_strip.
    pose proof (split_on_all_chars _ is_list_separator raw H) as HF.
    rewrite Forall_forall in HF. now apply HF. }
  apply (all_chars_both _ _ plain_char t) with (2 := Hin) (3 := Hsep).
  intros c Hc Hs. simpl in Hc, Hs.
  destruct (is_list_separator c); [discriminate|]. now rewrite orb_false_r in Hc.
Qed.

Lemma list_literal_of_plain_text_witness :
  format_string_list_for_code ("item1, item2" ++ Py.nl ++ "item3")
  = "[" ++ Py.join ", " (map single_quoted ["item1"; "item2"; "item3"]) ++ "]".
Proof.
  apply (list_literal_of_plain_text ("item1, item2" ++ Py.nl ++ "item3")).
  reflexivity.
Defined.

(** * Further properties: the warnings *)

Lemma string_of_uint_no_colon d :
  all_chars (fun c => negb (Ascii.eqb c ":"%char)) (NilEmpty.string_of_uint d) = true.
Proof. induction d; simpl; auto. Qed.

Lemma str_of_nat_injective n m : Py.str_of_nat n = Py.str_of_nat m -> n = m.
Proof.
  unfold Py.str_of_nat. intro H.
  apply (f_equal NilEmpty.uint_of_string) in H. rewrite !NilEmpty.usu in H.
  injection H as H. apply (f_equal Nat.of_uint) in H.
  now rewrite !Unsigned.of_to in H.
Qed.

(** Two texts that agree up to their first colon agree before it and after
    it. *)
Lemma split_at_colon : forall a b x y,
  all_chars (fun c => negb (Ascii.eqb c ":"%char)) a = true ->
  all_chars (fun c => negb (Ascii.eqb c ":"%char)) b = true ->
  a ++ String ":"%char x = b ++ String ":"%char y ->
  a = b /\ x = y.
Proof.
  induction a as [|c a IH]; intros [|d b] x y Ha Hb H; simpl in *.
  - injection H as ->. auto.
  - injection H as <- _. discriminate.
  - injection H as -> _. discriminate.
  - apply andb_true_iff in Ha as [_ Ha]. apply andb_true_iff in Hb as [_ Hb].
    injection H as -> H. destruct (IH b x y Ha Hb H) as [-> ->]. auto.
Qed.

Lemma skill_message_injective card card' i j (rest rest' : string) :
  skill_prefix card i ++ String ":"%char rest
  = skill_prefix card' j ++ String ":"%char rest' ->
  card = card' /\ i = j /\ rest = rest'.
Proof.
  unfold skill_prefix. rewrite !append_assoc. intro H.
  assert (Hs : forall n, all_chars (fun c => negb (Ascii.eqb c ":"%char))
                           (Py.str_of_nat n) = true).
  { intro n. apply string_of_uint_no_colon. }
  destruct card, card'; simpl in H; try discriminate H.
  - repeat (injection H as H).
    destruct (split_at_colon _ _ _ _ (Hs (i + 1)) (Hs (j + 1)) H) as [E ->].
    apply str_of_nat_injective in E. repeat split; auto. lia.
  - repeat (injection H as H).
    destruct (split_at_colon _ _ _ _ (Hs (i + 1)) (Hs (j + 1)) H) as [E ->].
    apply str_of_nat_injective in E. repeat split; auto. lia.
Qed.

(** X13.  The text of a warning tells which check failed: two different
    failures (another field, another card, another skill index) never have
    the same text.  The index shown for a skill is its place counted from
    1. *)
Theorem warning_text_injective (e1 e2 : validation_error) :
  warning_text e1 = warning_text e2 -> e1 = e2.
Proof.
  destruct e1 as [| |c1 i1|c1 i1| |], e2 as [| |c2 i2|c2 i2| |];
    intro H; try reflexivity; try discriminate H;
    try (unfold warning_text in H;
         match type of H with
         | context [skill_prefix ?c _] => destruct c
         end; discriminate H).
  - destruct (skill_message_injective _ _ _ _ _ _ H) as (-> & -> & _). reflexivity.
  - destruct (skill_message_injective _ _ _ _ _ _ H) as (_ & _ & E). discriminate E.
  - destruct (skill_message_injective _ _ _ _ _ _ H) as (_ & _ & E). discriminate E.
  - destruct (skill_message_injective _ _ _ _ _ _ H) as (-> & -> & _). reflexivity.
Qed.

Lemma warning_text_injective_witness :
  SkillIdRequired AgentCard 2 = SkillIdRequired AgentCard 2.
Proof.
  apply (warning_text_injective (SkillIdRequired AgentCard 2) (SkillIdRequired AgentCard 2)).
  reflexivity.
Defined.

(** * Further properties: white space and the hidden field *)

Lemma lstrip_padding a s : all_chars Py.isspace a = true -> Py.lstrip (a ++ s) = Py.lstrip s.
Proof.
  induction a as [|c a IH]; simpl; auto.
  intro H. apply andb_true_iff in H as [Hc Ha]. rewrite Hc. auto.
Qed.

Lemma rstrip_all_space s : all_chars Py.isspace s = true -> Py.rstrip s = EmptyString.
Proof.
  induction s as [|c r IH]; simpl; auto.
  intro H. apply andb_true_iff in H as [Hc Hr]. now rewrite (IH Hr), Hc.
Qed.

Lemma rstrip_padding b s : all_chars Py.isspace b = true -> Py.rstrip (s ++ b) = Py.rstrip s.
Proof.
  intro H. induction s as [|c r IH]; simpl.
  - now apply rstrip_all_space.
  - now rewrite IH.
Qed.

Lemma lstrip_append s b :
  all_chars Py.isspace s = false -> Py.lstrip (s ++ b) = Py.lstrip s ++ b.
Proof.
  induction s as [|c r IH]; simpl; [discriminate|].
  destruct (Py.isspace c); simpl; auto.
Qed.

(** X14.  White space around an entry does not count: stripping a text
    padded with white space on both sides gives what stripping the text
    gives, so every field that [get_data] strips is read the same with or
    without the padding; and what is read has no white space left at either
    end. *)
Theorem strip_ignores_padding (a s b : string) :
  all_chars Py.isspace a = true ->
  all_chars Py.isspace b = true ->
  Py.strip (a ++ s ++ b) = Py.strip s
  /\ Py.lstrip (Py.strip s) = Py.strip s
  /\ Py.rstrip (Py.strip s) = Py.strip s
  /\ (forall (w : ServerConfigWidget.t),
         ServerConfigWidget.get_data
           {| ServerConfigWidget.agent_executor_edit :=
                a ++ ServerConfigWidget.agent_executor_edit w ++ b;
              ServerConfigWidget.task_store_combo := ServerConfigWidget.task_store_combo w;
              ServerConfigWidget.custom_task_store_edit :=
                a ++ ServerConfigWidget.custom_task_store_edit w ++ b |}
         = ServerConfigWidget.get_data w).
Proof.
  intros Ha Hb.
  assert (Hstrip : forall t, Py.strip (a ++ t ++ b) = Py.strip t).
  { intro t. unfold Py.strip. rewrite (lstrip_padding a _ Ha).
    destruct (all_chars Py.isspace t) eqn:Ht.
    - rewrite (lstrip_all_space t Ht).
      rewrite (lstrip_padding t b Ht), (lstrip_all_space b Hb). reflexivity.
    - rewrite (lstrip_append t b Ht). now apply rstrip_padding. }
  split; [apply Hstrip|]. split; [apply lstrip_strip|]. split; [apply rstrip_strip|].
  intro w. unfold ServerConfigWidget.get_data. cbn [ServerConfigWidget.agent_executor_edit
    ServerConfigWidget.task_store_combo ServerConfigWidget.custom_task_store_edit].
  now rewrite !Hstrip.
Qed.

Lemma strip_ignores_padding_witness :
  Py.strip ("  " ++ "my_module.CustomTaskStore" ++ " ") = Py.strip "my_module.CustomTaskStore"
  /\ Py.lstrip (Py.strip "my_module.CustomTaskStore") = Py.strip "my_module.CustomTaskStore"
  /\ Py.rstrip (Py.strip "my_module.CustomTaskStore") = Py.strip "my_module.CustomTaskStore"
  /\ (forall (w : ServerConfigWidget.t),
         ServerConfigWidget.get_data
           {| ServerConfigWidget.agent_executor_edit :=
                "  " ++ ServerConfigWidget.agent_executor_edit w ++ " ";
              ServerConfigWidget.task_store_combo := ServerConfigWidget.task_store_combo w;
              ServerConfigWidget.custom_task_store_edit :=
                "  " ++ ServerConfigWidget.custom_task_store_edit w ++ " " |}
         = ServerConfigWidget.get_data w).
Proof.
  apply (strip_ignores_padding "  " "my_module.CustomTaskStore" " "); reflexivity.
Defined.

(** X15.  While the combo shows its first item, the custom task-store field
    is not read: whatever it holds, the value read is [InMemoryTaskStore],
    the check of the custom path cannot fail, and in the list [code] that is
    generated no import line is added (the header of the capabilities
    section comes right after the three fixed imports) and the one entry
    that starts with [    task_store=] gives the request handler
    [InMemoryTaskStore()]. *)
Theorem default_task_store_ignores_custom_field (self : MainWindow.t) :
  ServerConfigWidget.task_store_combo (MainWindow.server_config_widget self)
  = ServerConfigWidget.InMemoryTaskStore ->
  task_store (ServerConfigWidget.get_data (MainWindow.server_config_widget self))
  = "InMemoryTaskStore"
  /\ MainWindow.validate self <> Some CustomTaskStoreRequired
  /\ exists code,
       MainWindow.generate self = Some code
       /\ firstn 4 code = app import_lines [capabilities_header]
       /\ In "    task_store=InMemoryTaskStore()," code
       /\ filter (startswith "    task_store=") code
          = ["    task_store=InMemoryTaskStore(),"].
Proof.
  intro Hcombo.
  assert (Hts : task_store (ServerConfigWidget.get_data
                              (MainWindow.server_config_widget self))
                = "InMemoryTaskStore").
  { unfold ServerConfigWidget.get_data. now rewrite Hcombo. }
  split; [exact Hts|]. split.
  - unfold MainWindow.validate, validation_checks. rewrite Hcombo.
    cbn [ServerConfigWidget.currentText].
    destruct (negb (Py.truthy _)); [discriminate|].
    destruct (negb (Py.truthy _)); [discriminate|].
    destruct (validate_skills AgentCard 0 _) as [e|] eqn:Hb.
    { destruct (validate_skills_sound _ _ _ _ Hb) as (j & skill & _ & _ & _ & ->).
      unfold skill_failure. destruct (Py.truthy (skill_id skill)); discriminate. }
    rewrite ext_skills_guard.
    destruct (validate_skills ExtendedAgentCard 0 _) as [e|] eqn:He.
    { destruct (validate_skills_sound _ _ _ _ He) as (j & skill & _ & _ & _ & ->).
      unfold skill_failure. destruct (Py.truthy (skill_id skill)); discriminate. }
    destruct (negb (Py.truthy _)); [discriminate|].
    simpl. discriminate.
  - eexists. split; [unfold MainWindow.generate, code_generation; rewrite Hts; reflexivity|].
    split; [reflexivity|].
    split; [apply (code_lines_task_store [] "InMemoryTaskStore()")|].
    now apply (task_store_entries [] "InMemoryTaskStore()").
Qed.

Lemma default_task_store_ignores_custom_field_witness :
  task_store (ServerConfigWidget.get_data
                (MainWindow.server_config_widget (echo_window "Echo" EmptyString)))
  = "InMemoryTaskStore"
  /\ MainWindow.validate (echo_window "Echo" EmptyString) <> Some CustomTaskStoreRequired
  /\ exists code,
       MainWindow.generate (echo_window "Echo" EmptyString) = Some code
       /\ firstn 4 code = app import_lines [capabilities_header]
       /\ In "    task_store=InMemoryTaskStore()," code
       /\ filter (startswith "    task_store=") code
          = ["    task_store=InMemoryTaskStore(),"].
Proof.
  apply (default_task_store_ignores_custom_field (echo_window "Echo" EmptyString)).
  reflexivity.
Defined.

(** * Further properties: the lines of the generated text *)

Lemma split_on_cons f s : exists p ps, Py.split_on f s = p :: ps.
Proof.
  destruct (Py.split_on f s) as [|p ps] eqn:E; eauto.
  pose proof (split_on_length f s) as H. rewrite E in H. discriminate H.
Qed.

Lemma split_on_app_sep f c a b :
  f c = true ->
  Py.split_on f (a ++ String c b) = (Py.split_on f a ++ Py.split_on f b)%list.
Proof.
  intro Hc. induction a as [|x a IH]; simpl.
  - now rewrite Hc.
  - rewrite IH. destruct (f x); [reflexivity|].
    destruct (split_on_cons f a) as (p & ps & ->). reflexivity.
Qed.

(** The lines of the joined text are the lines of the entries, in order. *)
Lemma text_lines_join (l : list string) : forall x,
  text_lines (Py.join Py.nl (x :: l)) = flat_map text_lines (x :: l).
Proof.
  unfold text_lines, Py.split.
  induction l as [|y l IH]; intro x.
  - simpl. now rewrite app_nil_r.
  - change (Py.join Py.nl (x :: y :: l)) with (x ++ String Py.LF (Py.join Py.nl (y :: l))).
    rewrite split_on_app_sep by reflexivity. rewrite IH. reflexivity.
Qed.

Lemma text_lines_one_line e : Py.contains Py.LF e = false -> text_lines e = [e].
Proof. apply split_plain. Qed.

(** Looking for a prefix among the lines of the entries or among the
    entries is the same, when an entry is one line or a section header and
    the prefix opens neither a header nor the empty line. *)
Lemma filter_text_lines (p : string -> bool) (code : list string) :
  (forall h, In h section_headers -> filter p (text_lines h) = [] /\ p h = false) ->
  Forall (fun e => Py.contains Py.LF e = false \/ In e section_headers) code ->
  filter p (flat_map text_lines code) = filter p code.
Proof.
  intros Hh H. induction H as [|e code He Hcode IH]; [reflexivity|].
  cbn [flat_map]. rewrite filter_app, IH.
  destruct He as [He | He].
  - rewrite (text_lines_one_line e He). simpl. destruct (p e); reflexivity.
  - destruct (Hh e He) as [-> Hp]. simpl. now rewrite Hp.
Qed.

Ltac no_line_feed :=
  repeat first
    [ progress cbn [Py.contains]
    | rewrite contains_append
    | rewrite contains_format_single
    | match goal with
      | H : Py.contains Py.LF ?x = false |- context [Py.contains Py.LF ?x] => rewrite H
      end ];
  reflexivity.

Ltac header_entry := right; cbn [In section_headers]; auto 10.

Ltac one_line_entries :=
  repeat (apply Forall_cons; [first [left; no_line_feed | header_entry]|]);
  try apply Forall_nil.

Lemma Forall_flat_map {A B} (Q : A -> Prop) (P : B -> Prop) (f : A -> list B) l :
  (forall x, Q x -> Forall P (f x)) -> Forall Q l -> Forall P (flat_map f l).
Proof.
  intros Hf H. induction H as [|x l Hx Hl IH]; simpl; [constructor|].
  apply Forall_app. split; auto.
Qed.

Lemma skill_lines_one_line skill :
  skill_one_line skill ->
  Forall (fun e => Py.contains Py.LF e = false \/ In e section_headers) (skill_lines skill).
Proof.
  intros (H1 & H2 & H3 & H4 & H5). unfold skill_lines. one_line_entries.
Qed.

Lemma instance_one_line ts inst :
  Py.contains Py.LF ts = false ->
  task_store_instance_code ts = Some inst ->
  Py.contains Py.LF inst = false.
Proof.
  intros Hts. unfold task_store_instance_code.
  destruct (ts =? "InMemoryTaskStore"); [intro E; injection E as <-; reflexivity|].
  destruct (ts =? "Custom"); simpl; [|].
  2:{ destruct (Py.contains "."%char ts) eqn:Hdot.
      - destruct (final_segment _ _ Hdot) as (a & b & _ & Hlast & Hs & _).
        rewrite Hlast. simpl. intro E. injection E as <-.
        rewrite Hs, contains_append in Hts. apply orb_false_iff in Hts as [_ Hb].
        simpl in Hb. no_line_feed.
      - rewrite (split_plain _ _ Hdot). simpl. intro E. injection E as <-. no_line_feed. }
  intro E. injection E as <-. reflexivity.
Qed.

Lemma custom_import_one_line ts lines :
  Py.contains Py.LF ts = false ->
  custom_import_lines ts = Some lines ->
  Forall (fun e => Py.contains Py.LF e = false \/ In e section_headers) lines.
Proof.
  intros Hts. destruct (Py.contains "."%char ts) eqn:Hdot.
  - destruct (final_segment _ _ Hdot) as (a & b & Hrs & _ & Hs & _).
    rewrite (custom_import_dotted _ _ _ Hrs Hdot). intro E. injection E as <-.
    rewrite Hs, contains_append in Hts. apply orb_false_iff in Hts as [Ha Hb].
    simpl in Hb. one_line_entries.
  - rewrite (custom_import_undotted _ Hdot). intro E. injection E as <-. constructor.
Qed.

(** With no line feed in any field, every entry of [code] is one line of
    text, the section headers apart. *)
Lemma code_entries_one_line acd ecd sd rels code :
  config_one_line acd ecd sd rels ->
  code_generation acd ecd sd rels = Some code ->
  Forall (fun e => Py.contains Py.LF e = false \/ In e section_headers) code.
Proof.
  intros ((Hn & Hd & Hu & Hv & Hi & Ho & Hsk) & (Hen & Hed & Hev & Hesk)
          & (Hex & Hts) & Hrels).
  unfold code_generation.
  destruct (custom_import_lines (task_store sd)) as [ci|] eqn:Hci; [|discriminate].
  destruct (task_store_instance_code (task_store sd)) as [inst|] eqn:Hinst; [|discriminate].
  cbn [bind]. intro E. injection E as <-.
  pose proof (custom_import_one_line _ _ Hts Hci) as Hci1.
  pose proof (instance_one_line _ _ Hts Hinst) as Hinst1.
  unfold code_lines. repeat (apply Forall_app; split).
  - unfold import_lines. one_line_entries.
  - exact Hci1.
  - unfold capabilities_lines.
    destruct (streaming (capabilities acd)), (pushNotifications (capabilities acd));
      one_line_entries.
  - unfold agent_skills_lines. apply Forall_cons; [header_entry|].
    destruct (list_truthy (card_skills acd)); [|one_line_entries].
    apply Forall_app. split; [|one_line_entries].
    apply Forall_cons; [left; reflexivity|].
    apply (Forall_flat_map skill_one_line); auto using skill_lines_one_line.
  - unfold agent_card_lines. one_line_entries.
  - unfold extended_card_lines. apply Forall_cons; [header_entry|].
    apply Forall_app. split.
    + unfold extended_skills_lines. destruct (list_truthy (ext_skills ecd)); [|constructor].
      apply Forall_app. split; [|one_line_entries].
      apply Forall_cons; [left; reflexivity|].
      apply (Forall_flat_map skill_one_line); auto using skill_lines_one_line.
    + unfold extended_card_binding_lines, update_str_parts, extended_card_update_dict.
      destruct (Py.truthy (ext_name ecd)), (Py.truthy (ext_description ecd)),
        (Py.truthy (ext_version ecd)), (list_truthy (ext_skills ecd));
        cbn [dict_set map app fst snd list_truthy Py.join String.eqb Ascii.eqb Bool.eqb];
        one_line_entries.
  - unfold request_handler_lines, resolved_agent_executor_class_name.
    destruct (Py.truthy (agent_executor_class_name sd)); one_line_entries.
  - unfold application_lines. one_line_entries.
  - unfold relationships_lines. apply Forall_cons; [header_entry|].
    destruct (list_truthy rels); [|one_line_entries].
    apply Forall_app. split; [|one_line_entries].
    apply Forall_cons; [left; reflexivity|].
    apply Forall_forall. intros e He. apply in_map_iff in He as (rel & <- & Hrel).
    rewrite Forall_forall in Hrels. destruct (Hrels rel Hrel) as [Hrn Hru].
    left. no_line_feed.
Qed.

Ltac headers_skipped :=
  let h := fresh "h" in
  let Hh := fresh "Hh" in
  intros h Hh; cbn [In section_headers] in Hh;
  repeat (destruct Hh as [<- | Hh]; [split; reflexivity|]);
  destruct Hh.

Lemma code_generation_cons acd ecd sd rels code :
  code_generation acd ecd sd rels = Some code -> exists x l, code = x :: l.
Proof.
  unfold code_generation.
  destruct (custom_import_lines (task_store sd)); [|discriminate].
  destruct (task_store_instance_code (task_store sd)); [|discriminate].
  cbn [bind]. intro E. injection E as <-. unfold code_lines, import_lines.
  eexists. eexists. reflexivity.
Qed.

(** With no line feed in any field, the lines of the generated text that
    start with a prefix are the entries of [code] that start with it, for a
    prefix that opens neither the empty line nor a section header. *)
Lemma generated_text_lines (p : string -> bool) acd ecd sd rels code :
  config_one_line acd ecd sd rels ->
  code_generation acd ecd sd rels = Some code ->
  (forall h, In h section_headers -> filter p (text_lines h) = [] /\ p h = false) ->
  filter p (text_lines (Py.join Py.nl code)) = filter p code.
Proof.
  intros Hone Hcode Hh.
  destruct (code_generation_cons _ _ _ _ _ Hcode) as (x & l & ->).
  rewrite text_lines_join. apply filter_text_lines; auto.
  apply (code_entries_one_line acd ecd sd rels); auto.
Qed.

(** X7.  The skills keep their order from the forms to the generated text:
    when no field holds a line feed, the lines of the text that start with
    [        id=] are the id lines of the skills of the card, in their
    order, followed by those of the skills of the extended card, in their
    order, and no other line.  The same holds, with or without line feeds
    in the fields, of the entries of the list [code]. *)
Theorem skill_ids_in_order acd ecd sd rels :
  exists code,
    code_generation acd ecd sd rels = Some code
    /\ filter (startswith "        id=") code
       = map skill_id_line (card_skills acd ++ ext_skills ecd)%list
    /\ (config_one_line acd ecd sd rels ->
        filter (startswith "        id=") (text_lines (Py.join Py.nl code))
        = map skill_id_line (card_skills acd ++ ext_skills ecd)%list).
Proof.
  destruct (skill_id_entries acd ecd sd rels) as (code & Hcode & Hf).
  exists code. split; [exact Hcode|]. split; [exact Hf|].
  intro Hone. rewrite <- Hf.
  apply (generated_text_lines _ acd ecd sd rels); auto. headers_skipped.
Qed.

Lemma skill_ids_in_order_witness :
  filter (startswith "        id=")
    (text_lines
       (Py.join Py.nl
          (code_lines [] "InMemoryTaskStore()" (echo_card [echo_skill; echo_skill])
             no_extended_card (echo_server "InMemoryTaskStore") [])))
  = map skill_id_line [echo_skill; echo_skill].
Proof.
  destruct (skill_ids_in_order (echo_card [echo_skill; echo_skill]) no_extended_card
              (echo_server "InMemoryTaskStore") []) as (code & Hcode & _ & Htext).
  injection Hcode as <-. apply Htext.
  repeat split; try reflexivity; repeat constructor.
Defined.

(** X8.  The relationships keep their order from the form to the generated
    text: when no field holds a line feed, the lines of the text that start
    with [#    '] are the comment lines [#    'name': 'url',] of the
    relationships, one each and in their order, and no other line.  The
    same holds, with or without line feeds in the fields, of the entries of
    the list [code]. *)
Theorem relationships_in_order acd ecd sd rels :
  exists code,
    code_generation acd ecd sd rels = Some code
    /\ filter (startswith "#    '") code = map relationship_line rels
    /\ (config_one_line acd ecd sd rels ->
        filter (startswith "#    '") (text_lines (Py.join Py.nl code))
        = map relationship_line rels).
Proof.
  destruct (relationship_entries acd ecd sd rels) as (code & Hcode & Hf).
  exists code. split; [exact Hcode|]. split; [exact Hf|].
  intro Hone. rewrite <- Hf.
  apply (generated_text_lines _ acd ecd sd rels); auto. headers_skipped.
Qed.

Lemma relationships_in_order_witness :
  filter (startswith "#    '")
    (text_lines
       (Py.join Py.nl
          (code_lines [] "InMemoryTaskStore()" (echo_card [echo_skill])
             no_extended_card (echo_server "InMemoryTaskStore")
             [ {| rel_name := "Weather Agent"; rel_url := "http://localhost:8001/" |};
               {| rel_name := "News Agent"; rel_url := "http://localhost:8002/" |} ])))
  = [ "#    'Weather Agent': 'http://localhost:8001/',";
      "#    'News Agent': 'http://localhost:8002/'," ].
Proof.
  destruct (relationships_in_order (echo_card [echo_skill]) no_extended_card
              (echo_server "InMemoryTaskStore")
              [ {| rel_name := "Weather Agent"; rel_url := "http://localhost:8001/" |};
                {| rel_name := "News Agent"; rel_url := "http://localhost:8002/" |} ])
    as (code & Hcode & _ & Htext).
  injection Hcode as <-. apply Htext.
  repeat split; try reflexivity; repeat constructor.
Defined.

Lemma in_skill_lines_code ci inst acd ecd sd rels skill e :
  In skill (card_skills acd) \/ In skill (ext_skills ecd) ->
  In e (skill_lines skill) ->
  In e (code_lines ci inst acd ecd sd rels).
Proof.
  intros Hs He. unfold code_lines. rewrite !in_app_iff.
  destruct Hs as [Hs | Hs].
  - do 3 right. left. unfold agent_skills_lines. right.
    destruct (card_skills acd) as [|s0 l] eqn:E; [destruct Hs|]. cbn [list_truthy].
    apply in_app_iff. left. right. apply in_flat_map. eauto.
  - do 5 right. left. unfold extended_card_lines, extended_skills_lines. right.
    apply in_app_iff. left.
    destruct (ext_skills ecd) as [|s0 l] eqn:E; [destruct Hs|]. cbn [list_truthy].
    apply in_app_iff. left. right. apply in_flat_map. eauto.
Qed.

(** X10.  The text [format_string_list_for_code] returns is one line: it
    holds no line feed, whatever the input, and it is [[]] exactly when the
    input has no token.  So in the list [code] generated from a window, the
    entries that carry the tags and the examples of every skill entry, and
    the input and output modes of the card, are there and are one line of
    text each, whatever was typed in those fields. *)
Theorem list_literal_one_line :
  (forall raw,
      Py.contains Py.LF (format_string_list_for_code raw) = false
      /\ (format_string_list_for_code raw = "[]" <-> items_of raw = []))
  /\ (forall (self : MainWindow.t),
         exists code,
           MainWindow.generate self = Some code
           /\ (forall w,
                  In w (AgentCardWidget.skills_layout (MainWindow.agent_card_widget self))
                  \/ In w (ExtendedAgentCardWidget.extended_skills_layout
                             (MainWindow.extended_agent_card_widget self)) ->
                  forall e,
                    e = "        tags="
                        ++ format_string_list_for_code (SkillEntryWidget.tags_edit w) ++ ","
                    \/ e = "        examples="
                           ++ format_string_list_for_code (SkillEntryWidget.examples_edit w)
                           ++ "," ->
                    In e code /\ text_lines e = [e])
           /\ (forall e,
                  e = "    default_input_modes="
                      ++ format_string_list_for_code
                           (AgentCardWidget.default_input_modes_edit
                              (MainWindow.agent_card_widget self)) ++ ","
                  \/ e = "    default_output_modes="
                         ++ format_string_list_for_code
                              (AgentCardWidget.default_output_modes_edit
                                 (MainWindow.agent_card_widget self)) ++ "," ->
                  In e code /\ text_lines e = [e])).
Proof.
  assert (Hlf : forall raw, Py.contains Py.LF (format_string_list_for_code raw) = false).
  { intro raw. rewrite format_string_list_repr.
    unfold Py.repr_list. cbn [append Py.contains].
    rewrite contains_append, join_no_line_feed; [reflexivity|].
    apply Forall_forall. intros x Hx. apply in_map_iff in Hx as (t & <- & _).
    apply repr_str_no_line_feed. }
  split.
  - intro raw. split; [apply Hlf|].
    rewrite format_string_list_repr.
    split; [|intros ->; reflexivity].
    destruct (items_of raw) as [|x l]; auto.
    unfold Py.repr_list. cbn [map]. intro H. exfalso.
    assert (Hj : exists q rest, (q = Py.SQUOTE \/ q = Py.DQUOTE)
                                /\ Py.join ", " (Py.repr_str x :: map Py.repr_str l)
                                   = String q rest).
    { unfold Py.repr_str at 1.
      destruct (Py.contains Py.SQUOTE x && negb (Py.contains Py.DQUOTE x));
        destruct l; simpl; eauto. }
    destruct Hj as (q & rest & Hq & Hj). rewrite Hj in H. simpl in H.
    destruct Hq as [-> | ->]; discriminate.
  - intro self. unfold MainWindow.generate, code_generation.
    destruct (custom_import_total
                (task_store (ServerConfigWidget.get_data
                               (MainWindow.server_config_widget self)))) as [ci ->].
    destruct (task_store_instance_total
                (task_store (ServerConfigWidget.get_data
                               (MainWindow.server_config_widget self)))) as [inst ->].
    cbn [bind]. eexists. split; [reflexivity|]. split.
    + intros w Hw e He. split.
      * apply (in_skill_lines_code _ _ _ _ _ _ (SkillEntryWidget.get_data w)).
        -- unfold AgentCardWidget.get_data, ExtendedAgentCardWidget.get_data.
           cbn [card_skills ext_skills].
           destruct Hw as [Hw | Hw]; [left | right]; now apply in_map.
        -- unfold skill_lines, SkillEntryWidget.get_data. cbn [skill_tags skill_examples].
           destruct He as [-> | ->]; cbn [In]; auto 10.
      * apply text_lines_one_line.
        destruct He as [-> | ->]; rewrite !contains_append, Hlf; reflexivity.
    + intros e He. split.
      * unfold code_lines. rewrite !in_app_iff. do 4 right. left.
        unfold agent_card_lines, AgentCardWidget.get_data.
        cbn [defaultInputModes defaultOutputModes].
        destruct He as [-> | ->]; cbn [In]; auto 12.
      * apply text_lines_one_line.
        destruct He as [-> | ->]; rewrite !contains_append, Hlf; reflexivity.
Qed.

(** X12.  [format_single_string_for_code] escapes nothing, so a double
    quote in a text closes the literal: the literal of a one-line text
    [a"mid"b] is the literal of [a], then [mid], then the literal of [b].
    An extended card whose name is [a", name="b] and which overrides
    nothing else thus gets a generated call with two [name] arguments. *)
Theorem quote_closes_literal (a mid b : string) :
  Py.contains Py.LF a = false ->
  Py.contains Py.LF mid = false ->
  Py.contains Py.LF b = false ->
  format_single_string_for_code (a ++ double_quote ++ mid ++ double_quote ++ b)
  = format_single_string_for_code a ++ mid ++ format_single_string_for_code b
  /\ (mid = ", name=" ->
      forall acd sd rels,
        exists code,
          code_generation acd
            {| ext_name := a ++ double_quote ++ mid ++ double_quote ++ b;
               ext_description := EmptyString;
               ext_version := EmptyString;
               ext_skills := [] |} sd rels = Some code
          /\ filter (startswith "extended_public_agent_card = ") code
             = [ "extended_public_agent_card = ExtendedAgentCard.from_agent_card(public_agent_card, "
                 ++ ("name=" ++ format_single_string_for_code a
                     ++ ", name=" ++ format_single_string_for_code b)
                 ++ ")" ]).
Proof.
  intros Ha Hm Hb.
  assert (Hlit : format_single_string_for_code (a ++ double_quote ++ mid ++ double_quote ++ b)
                 = format_single_string_for_code a ++ mid ++ format_single_string_for_code b).
  { unfold format_single_string_for_code.
    rewrite !contains_append, Ha, Hm, Hb. cbn [Py.contains double_quote Py.chr orb].
    change (Ascii.eqb Py.DQUOTE Py.LF) with false. cbn [orb].
    unfold double_quote, Py.chr. cbn [append].
    repeat (rewrite !append_assoc; cbn [append]). reflexivity. }
  split; [exact Hlit|].
  intros -> acd sd rels.
  set (ecd := {| ext_name := a ++ double_quote ++ ", name=" ++ double_quote ++ b;
                 ext_description := EmptyString;
                 ext_version := EmptyString;
                 ext_skills := [] |}).
  unfold code_generation.
  destruct (custom_import_total (task_store sd)) as [ci Hci].
  destruct (task_store_instance_total (task_store sd)) as [inst Hi].
  rewrite Hci, Hi. cbn [bind]. eexists. split; [reflexivity|].
  assert (Hov : overrides ecd = [("name", string_literal (ext_name ecd))]).
  { unfold overrides, ecd. cbn [ext_name ext_description ext_version ext_skills
      filter snd fst map app list_truthy Py.truthy].
    destruct a; reflexivity. }
  destruct (custom_import_shape _ _ Hci) as [-> | (x & y & ->)];
    (match goal with
     | |- context [code_lines ?ci _ _ _ _ _] =>
         destruct (extended_entries ci inst acd ecd sd rels eq_refl eq_refl eq_refl)
           as [H _]
     end;
     rewrite H, Hov; cbn [map Py.join keyword_argument fst snd];
     rewrite <- format_single_string_literal; unfold ecd; cbn [ext_name];
     rewrite Hlit; reflexivity).
Qed.

Lemma quote_closes_literal_witness :
  format_single_string_for_code ("a" ++ double_quote ++ ", name=" ++ double_quote ++ "b")
  = format_single_string_for_code "a" ++ ", name=" ++ format_single_string_for_code "b"
  /\ (", name=" = ", name=" ->
      forall acd sd rels,
        exists code,
          code_generation acd
            {| ext_name := "a" ++ double_quote ++ ", name=" ++ double_quote ++ "b";
               ext_description := EmptyString;
               ext_version := EmptyString;
               ext_skills := [] |} sd rels = Some code
          /\ filter (startswith "extended_public_agent_card = ") code
             = [ "extended_public_agent_card = ExtendedAgentCard.from_agent_card(public_agent_card, "
                 ++ ("name=" ++ format_single_string_for_code "a"
                     ++ ", name=" ++ format_single_string_for_code "b")
                 ++ ")" ]).
Proof.
  apply (quote_closes_literal "a" ", name=" "b"); reflexivity.
Defined.
